(** * talkie: push-to-talk voice link over WebRTC with MQTT signalling

    A shallow embedding of [c_end.py] (the Caller, class [WebRTCClient]
    with its microphone source [AudioInputTrack]) and [s_end.py] (the
    Responder, class [WebRTCServer]).

    The program is glue between three external libraries: PyAudio (the
    sound card), aiortc (the transport engine) and paho-mqtt (the message
    bus).  Their objects are modelled as handles that record every call
    made on them, together with an oracle that decides how the library
    answers a call given the calls made before.  Every statement below
    quantifies over the oracle, so it holds whatever the library does. *)

From Stdlib Require Import ZArith NArith List String Bool Lia Arith.
From Stdlib Require Import Strings.Byte.
Import ListNotations.

Set Implicit Arguments.

(* ================================================================== *)
(** * Python values, exceptions and the effect monad                   *)
(* ================================================================== *)

Module Py.

Definition bytes := list byte.

(** [bytes(n)]: [n] zero bytes. *)
Definition bytes_zeros (n : nat) : bytes := repeat x00 n.

Inductive exn : Type :=
| UnicodeDecodeError
| ValueError
| IndexError
| AttributeError
| OSError
| MediaStreamError
| LibraryError (what : string).

Inductive result (A : Type) : Type :=
| Ok (a : A)
| Raise (e : exn).
Arguments Ok {A} a.
Arguments Raise {A} e.

(** A statement run on an object of type [S]: it returns or raises, and
    in both cases leaves the object in some state (Python does not roll
    back the mutations made before an exception). *)
Definition M (S A : Type) : Type := S -> result A * S.

Definition ret {S A} (a : A) : M S A := fun s => (Ok a, s).
Definition bind {S A B} (c : M S A) (k : A -> M S B) : M S B :=
  fun s => match c s with
           | (Ok a, s') => k a s'
           | (Raise e, s') => (Raise e, s')
           end.
Definition get {S} : M S S := fun s => (Ok s, s).
Definition modify {S} (f : S -> S) : M S unit := fun s => (Ok tt, f s).

(** [try: c except Exception: h].  Every exception of the model is an
    [Exception]; task cancellation, which is not, is not modelled. *)
Definition try_except {S A} (c : M S A) (h : exn -> M S A) : M S A :=
  fun s => match c s with
           | (Ok a, s') => (Ok a, s')
           | (Raise e, s') => h e s'
           end.

(** A pure computation that may raise, used as a statement. *)
Definition lift {S A} (r : result A) : M S A := fun s => (r, s).

(** Run a statement on a field of the object ([proj]/[upd] is the
    field's getter and setter). *)
Definition zoom {S T A} (proj : S -> T) (upd : T -> S -> S)
           (c : M T A) : M S A :=
  fun s => let (r, t') := c (proj s) in (r, upd t' s).

(** [bytes.decode()] with the default codec (UTF-8, strict errors).  A
    Python [str] obtained this way is represented by its UTF-8
    encoding, so decoding is validation followed by a change of type. *)
Definition in_range (lo hi : N) (b : byte) : bool :=
  (N.leb lo (Byte.to_N b) && N.leb (Byte.to_N b) hi)%bool.

Definition cont (b : byte) : bool := in_range 128 191 b.

Fixpoint utf8_valid (bs : bytes) : bool :=
  match bs with
  | [] => true
  | b1 :: r1 =>
    if in_range 0 127 b1 then utf8_valid r1
    else match r1 with
    | [] => false
    | b2 :: r2 =>
      if in_range 194 223 b1 then (cont b2 && utf8_valid r2)%bool
      else match r2 with
      | [] => false
      | b3 :: r3 =>
        if in_range 224 224 b1
        then (in_range 160 191 b2 && cont b3 && utf8_valid r3)%bool
        else if in_range 237 237 b1
        then (in_range 128 159 b2 && cont b3 && utf8_valid r3)%bool
        else if in_range 225 239 b1
        then (cont b2 && cont b3 && utf8_valid r3)%bool
        else match r3 with
        | [] => false
        | b4 :: r4 =>
          if in_range 240 240 b1
          then (in_range 144 191 b2 && cont b3 && cont b4
                && utf8_valid r4)%bool
          else if in_range 241 243 b1
          then (cont b2 && cont b3 && cont b4 && utf8_valid r4)%bool
          else if in_range 244 244 b1
          then (in_range 128 143 b2 && cont b3 && cont b4
                && utf8_valid r4)%bool
          else false
        end
      end
    end
  end.

Definition decode (bs : bytes) : result string :=
  if utf8_valid bs then Ok (string_of_list_byte bs)
  else Raise UnicodeDecodeError.

End Py.

Export Py.

Declare Scope py_scope.
Delimit Scope py_scope with py.
Notation "x <- c ;; k" := (Py.bind c (fun x => k))
  (at level 61, c at next level, right associativity) : py_scope.
Notation "c ;;; k" := (Py.bind c (fun _ => k))
  (at level 61, right associativity) : py_scope.

(* ================================================================== *)
(** * numpy: the int16 view of a byte buffer                           *)
(* ================================================================== *)

Module Np.

Definition byte_to_Z (b : byte) : Z := Z.of_N (Byte.to_N b).

Definition byte_of_Z (z : Z) : byte :=
  match Byte.of_N (Z.to_N (z mod 256)) with
  | Some b => b
  | None => x00
  end.

(** One little-endian two's-complement int16. *)
Definition int16_of (lo hi : byte) : Z :=
  let u := (byte_to_Z lo + 256 * byte_to_Z hi)%Z in
  if (u <? 32768)%Z then u else (u - 65536)%Z.

(** [np.frombuffer(data, dtype=np.int16)]: raises [ValueError] when the
    buffer size is not a multiple of the element size. *)
Fixpoint frombuffer_int16 (data : bytes) : result (list Z) :=
  match data with
  | [] => Ok []
  | [_] => Raise ValueError
  | lo :: hi :: rest =>
    match frombuffer_int16 rest with
    | Ok a => Ok (int16_of lo hi :: a)
    | Raise e => Raise e
    end
  end.

(** [array.tobytes()]. *)
Fixpoint tobytes (a : list Z) : bytes :=
  match a with
  | [] => []
  | v :: a' =>
    let u := (v mod 65536)%Z in
    byte_of_Z u :: byte_of_Z (u / 256) :: tobytes a'
  end.

End Np.

(* ================================================================== *)
(** * PyAudio: the sound card                                          *)
(* ================================================================== *)

Module PyAudio.

Inductive Call : Type :=
| COpen (input : bool) (frames_per_buffer : option nat)
| CRead (num_frames : nat)
| CWrite (data : bytes)
| CStopStream
| CClose
| CTerminate.

(** What the hardware does with a blocking read. *)
Inductive HwRead : Type :=
| HwData (data : bytes)
| HwOverflowed (data : bytes)
| HwFailed (e : exn).

(** The library and the hardware behind it: how each call is answered,
    given the calls made so far. *)
Record Host : Type := {
  on_open : list Call -> option exn;
  on_read : list Call -> nat -> HwRead;
  on_write : list Call -> bytes -> option exn;
  on_stop_stream : list Call -> option exn;
  on_close : list Call -> option exn;
  on_terminate : list Call -> option exn
}.

(** A [pyaudio.PyAudio()] instance with the one stream the program
    opens on it. *)
Record t : Type := {
  host : Host;
  history : list Call
}.

Definition PyAudio (h : Host) : t := {| host := h; history := [] |}.

Definition record (c : Call) (p : t) : t :=
  {| host := host p; history := history p ++ [c] |}.

Definition answer (c : Call) (a : option exn) : M t unit :=
  fun p => match a with
           | None => (Ok tt, record c p)
           | Some e => (Raise e, record c p)
           end.

(** A [Stream] object is a token for the stream of its instance. *)
Inductive Stream : Type := TheStream.

Definition open (input : bool) (frames_per_buffer : option nat)
  : M t Stream :=
  fun p =>
    let c := COpen input frames_per_buffer in
    match on_open (host p) (history p) with
    | None => (Ok TheStream, record c p)
    | Some e => (Raise e, record c p)
    end.

(** [stream.read(num_frames, exception_on_overflow)]: an input overflow
    raises only when the caller asked for it; otherwise the buffer is
    returned as the hardware left it. *)
Definition read (num_frames : nat) (exception_on_overflow : bool)
  : M t bytes :=
  fun p =>
    let p' := record (CRead num_frames) p in
    match on_read (host p) (history p) num_frames with
    | HwData d => (Ok d, p')
    | HwOverflowed d =>
      if exception_on_overflow then (Raise OSError, p') else (Ok d, p')
    | HwFailed e => (Raise e, p')
    end.

Definition write (data : bytes) : M t unit :=
  fun p => answer (CWrite data) (on_write (host p) (history p) data) p.

Definition stop_stream : M t unit :=
  fun p => answer CStopStream (on_stop_stream (host p) (history p)) p.

Definition close : M t unit :=
  fun p => answer CClose (on_close (host p) (history p)) p.

Definition terminate : M t unit :=
  fun p => answer CTerminate (on_terminate (host p) (history p)) p.

(** An output device in working order: it accepts every call. *)
Definition working (h : Host) : Prop :=
  forall past,
    on_open h past = None /\ (forall d, on_write h past d = None) /\
    on_stop_stream h past = None /\ on_close h past = None /\
    on_terminate h past = None.

End PyAudio.

(* ================================================================== *)
(** * av: audio frames                                                 *)
(* ================================================================== *)

Module Av.

(** A plane owns a buffer of fixed size; its content is [None] until
    something has been written to it. *)
Record Plane : Type := {
  buffer_size : nat;
  content : option bytes
}.

Record AudioFrame : Type := {
  format : string;
  layout : string;
  samples : nat;
  planes : list Plane;
  pts : option Z;
  time_base : option (Z * Z)
}.

Definition bytes_per_sample (format : string) : nat :=
  if String.eqb format "s16" then 2 else
  if String.eqb format "u8" then 1 else 4.

Definition nb_channels (layout : string) : nat :=
  if String.eqb layout "mono" then 1 else 2.

(** [AudioFrame(format, layout, samples)] for a packed format: one
    plane holding every channel. *)
Definition new (format layout : string) (samples : nat) : AudioFrame :=
  {| format := format; layout := layout; samples := samples;
     planes := [ {| buffer_size :=
                      samples * bytes_per_sample format * nb_channels layout;
                    content := None |} ];
     pts := None; time_base := None |}.

(** [plane.update(input)]: the input must fill the buffer exactly. *)
Definition update (input : bytes) (pl : Plane) : result Plane :=
  if Nat.eqb (List.length input) (buffer_size pl)
  then Ok {| buffer_size := buffer_size pl; content := Some input |}
  else Raise ValueError.

Definition to_bytes (pl : Plane) : bytes :=
  match content pl with
  | Some d => d
  | None => bytes_zeros (buffer_size pl)
  end.

(** [for plane in frame.planes: plane.update(input)]. *)
Fixpoint update_all (input : bytes) (pls : list Plane)
  : result (list Plane) :=
  match pls with
  | [] => Ok []
  | pl :: rest =>
    match update input pl with
    | Ok pl' =>
      match update_all input rest with
      | Ok rest' => Ok (pl' :: rest')
      | Raise e => Raise e
      end
    | Raise e => Raise e
    end
  end.

Definition with_planes (pls : list Plane) (f : AudioFrame) : AudioFrame :=
  {| format := format f; layout := layout f; samples := samples f;
     planes := pls; pts := pts f; time_base := time_base f |}.

Definition stamp (p : Z) (tb : Z * Z) (f : AudioFrame) : AudioFrame :=
  {| format := format f; layout := layout f; samples := samples f;
     planes := planes f; pts := Some p; time_base := Some tb |}.

End Av.


(* ================================================================== *)
(** * aiortc: the transport engine                                     *)
(* ================================================================== *)

Module Aiortc.

Record RTCSessionDescription : Type := {
  sdp : string;
  type : string
}.

Inductive Call : Type :=
| CCreateOffer
| CCreateAnswer
| CSetLocalDescription (d : RTCSessionDescription)
| CSetRemoteDescription (d : RTCSessionDescription)
| CAddTrack.

(** The engine: how each negotiation call is answered, and what the
    [localDescription] property reads, given the calls made so far. *)
Record Engine : Type := {
  on_createOffer : list Call -> result RTCSessionDescription;
  on_createAnswer : list Call -> result RTCSessionDescription;
  on_setLocalDescription : list Call -> RTCSessionDescription -> option exn;
  on_setRemoteDescription : list Call -> RTCSessionDescription -> option exn;
  read_localDescription : list Call -> option RTCSessionDescription
}.

Record RTCPeerConnection : Type := {
  engine : Engine;
  history : list Call
}.

Definition new (e : Engine) : RTCPeerConnection :=
  {| engine := e; history := [] |}.

Definition record (c : Call) (pc : RTCPeerConnection) : RTCPeerConnection :=
  {| engine := engine pc; history := history pc ++ [c] |}.

Definition createOffer : M RTCPeerConnection RTCSessionDescription :=
  fun pc => (on_createOffer (engine pc) (history pc), record CCreateOffer pc).

Definition createAnswer : M RTCPeerConnection RTCSessionDescription :=
  fun pc => (on_createAnswer (engine pc) (history pc), record CCreateAnswer pc).

Definition setLocalDescription (d : RTCSessionDescription)
  : M RTCPeerConnection unit :=
  fun pc =>
    match on_setLocalDescription (engine pc) (history pc) d with
    | None => (Ok tt, record (CSetLocalDescription d) pc)
    | Some e => (Raise e, record (CSetLocalDescription d) pc)
    end.

Definition setRemoteDescription (d : RTCSessionDescription)
  : M RTCPeerConnection unit :=
  fun pc =>
    match on_setRemoteDescription (engine pc) (history pc) d with
    | None => (Ok tt, record (CSetRemoteDescription d) pc)
    | Some e => (Raise e, record (CSetRemoteDescription d) pc)
    end.

Definition addTrack : M RTCPeerConnection unit :=
  fun pc => (Ok tt, record CAddTrack pc).

Definition localDescription (pc : RTCPeerConnection)
  : option RTCSessionDescription :=
  read_localDescription (engine pc) (history pc).

(** [pc.localDescription.sdp]: an attribute of [None] does not exist. *)
Definition localDescription_sdp : M RTCPeerConnection string :=
  fun pc => match localDescription pc with
            | Some d => (Ok (sdp d), pc)
            | None => (Raise AttributeError, pc)
            end.

(** A remote track as the engine hands it to the [track] event: the
    frames it will deliver, after which [recv] raises. *)
Record MediaStreamTrack : Type := {
  kind : string;
  id : nat;
  incoming : list Av.AudioFrame;
  pulls : nat   (* how many times [recv] was called on the track *)
}.

Definition recv : M MediaStreamTrack Av.AudioFrame :=
  fun tr => match incoming tr with
            | f :: rest =>
              (Ok f, {| kind := kind tr; id := id tr; incoming := rest;
                        pulls := S (pulls tr) |})
            | [] =>
              (Raise MediaStreamError,
               {| kind := kind tr; id := id tr; incoming := [];
                  pulls := S (pulls tr) |})
            end.

End Aiortc.

(* ================================================================== *)
(** * paho-mqtt: the message bus                                       *)
(* ================================================================== *)

Module Mqtt.

Record MQTTMessage : Type := {
  topic : string;
  payload : bytes
}.

Record Client : Type := {
  client_id : string;
  subscriptions : list (string * nat);
  published : list (string * string)
}.

Definition new (cid : string) : Client :=
  {| client_id := cid; subscriptions := []; published := [] |}.

Definition subscribe (topics : list (string * nat)) : M Client unit :=
  modify (fun c => {| client_id := client_id c;
                      subscriptions := subscriptions c ++ topics;
                      published := published c |}).

Definition publish (topic payload : string) : M Client unit :=
  modify (fun c => {| client_id := client_id c;
                      subscriptions := subscriptions c;
                      published := published c ++ [(topic, payload)] |}).

(** The broker forwards a message to a client only when the client has
    subscribed to its topic (the topics of this program are literal: no
    wildcard is ever subscribed). *)
Definition subscribed (c : Client) (topic : string) : bool :=
  existsb (fun s => String.eqb (fst s) topic) (subscriptions c).

End Mqtt.


(* ================================================================== *)
(** * asyncio: the tasks of the event loop                             *)
(* ================================================================== *)

Module Asyncio.

(** [while True: body], where [body] answers [false] for [break].  The
    result is [None] when [fuel] iterations were not enough. *)
Fixpoint while_true {S} (fuel : nat) (body : M S bool)
  : S -> option (result unit * S) :=
  fun s =>
    match fuel with
    | O => None
    | Datatypes.S fuel' =>
      match body s with
      | (Ok true, s') => while_true fuel' body s'
      | (Ok false, s') => Some (Ok tt, s')
      | (Raise e, s') => Some (Raise e, s')
      end
    end.

(** [tasks ++ [(next_id, co)]]: what [create_task] and [ensure_future]
    do to the loop; the task's identity is its number. *)
Definition spawn {Co} (next_id : nat) (co : Co) (tasks : list (nat * Co))
  : list (nat * Co) := tasks ++ [(next_id, co)].

End Asyncio.

(* ================================================================== *)
(** * The audio sink shared, as text, by both endpoints                *)
(* ================================================================== *)

Module Sink.

(** The local variables of [play_audio]. *)
Record t : Type := {
  p : PyAudio.t;
  track : Aiortc.MediaStreamTrack
}.

Definition set_p (p' : PyAudio.t) (s : t) : t :=
  {| p := p'; track := track s |}.
Definition set_track (tr : Aiortc.MediaStreamTrack) (s : t) : t :=
  {| p := p s; track := tr |}.

(** [frame.planes[0]]. *)
Definition planes_0 (f : Av.AudioFrame) : result Av.Plane :=
  match Av.planes f with
  | pl :: _ => Ok pl
  | [] => Raise IndexError
  end.

Definition release_calls : list PyAudio.Call :=
  [PyAudio.CStopStream; PyAudio.CClose; PyAudio.CTerminate].

(** [frame.planes[0].to_bytes()], for a frame that has a plane. *)
Definition raw_bytes (f : Av.AudioFrame) : bytes :=
  match Av.planes f with
  | pl :: _ => Av.to_bytes pl
  | [] => []
  end.

(** How many of the notifications [trs] report the audio track [id]. *)
Definition audio_notifications (track_id : nat)
           (trs : list Aiortc.MediaStreamTrack) : nat :=
  List.length
    (filter (fun tr => (String.eqb (Aiortc.kind tr) "audio"
                        && Nat.eqb (Aiortc.id tr) track_id)%bool) trs).

End Sink.

(* ================================================================== *)
(** * c_end.py: the Caller                                             *)
(* ================================================================== *)

Module C_end.

Local Open Scope py_scope.
Local Open Scope string_scope.

Definition MQTT_BROKER : string := "192.168.3.24".
Definition OFFER_TOPIC : string := "walkie-talkie/offer".
Definition ANSWER_TOPIC : string := "walkie-talkie/answer".
Definition ICE_TOPIC : string := "walkie-talkie/ice".

Definition SAMPLE_RATE : Z := 48000.
Definition CHANNELS : nat := 1.
Definition CHUNK : nat := 960.

(** ** class AudioInputTrack *)

Record AudioInputTrack : Type := {
  p : PyAudio.t;
  stream : option PyAudio.Stream;
  is_active : bool
}.

Definition set_p (p' : PyAudio.t) (t : AudioInputTrack) : AudioInputTrack :=
  {| p := p'; stream := stream t; is_active := is_active t |}.

Definition set_is_active (b : bool) (t : AudioInputTrack) : AudioInputTrack :=
  {| p := p t; stream := stream t; is_active := b |}.

(** [AudioInputTrack.__init__] on a machine whose sound system is [h]. *)
Definition AudioInputTrack_init (h : PyAudio.Host) : result AudioInputTrack :=
  match PyAudio.open true (Some CHUNK) (PyAudio.PyAudio h) with
  | (Ok st, p') =>
    Ok {| p := p'; stream := Some st; is_active := false |}
  | (Raise e, _) => Raise e
  end.

(** A method call on [self.stream]. *)
Definition on_stream {A} (c : M PyAudio.t A) : M AudioInputTrack A :=
  fun t => match stream t with
           | Some _ => zoom p set_p c t
           | None => (Raise AttributeError, t)
           end.

(** [self.next_timestamp()], line 37.  The class defines [__init__],
    [recv], [set_ptt] and [stop] and assigns the attributes [p],
    [stream], [lock] and [is_active]; its base, aiortc's
    [MediaStreamTrack], has no [next_timestamp] either.  The attribute
    lookup fails: the call raises [AttributeError] and leaves the object
    as it is. *)
Definition next_timestamp : M AudioInputTrack (Z * (Z * Z)) :=
  fun t => (Raise AttributeError, t).

(** [for plane in frame.planes: plane.update(data)], then the two
    attribute assignments. *)
Definition fill (data : bytes) (pts : Z) (time_base : Z * Z)
           (frame : Av.AudioFrame) : result Av.AudioFrame :=
  match Av.update_all data (Av.planes frame) with
  | Ok pls => Ok (Av.stamp pts time_base (Av.with_planes pls frame))
  | Raise e => Raise e
  end.

(** [AudioInputTrack.recv].  The body runs under [self.lock]; the model
    is sequential, so the critical section is the whole body. *)
Definition recv : M AudioInputTrack Av.AudioFrame :=
  ts <- next_timestamp ;;
  self <- get ;;
  if negb (is_active self) then
    let frame := Av.new "s16" "mono" CHUNK in
    lift (fill (bytes_zeros (CHUNK * 2)) (fst ts) (snd ts) frame)
  else
    data <- on_stream (PyAudio.read CHUNK false) ;;
    array <- lift (Np.frombuffer_int16 data) ;;
    let frame := Av.new "s16" "mono" CHUNK in
    lift (fill (Np.tobytes array) (fst ts) (snd ts) frame).

Definition set_ptt (active : bool) : M AudioInputTrack unit :=
  modify (set_is_active active).

(** [if self.stream:] tests that the attribute holds an object. *)
Definition truthy {A} (o : option A) : bool :=
  match o with Some _ => true | None => false end.

Definition stop : M AudioInputTrack unit :=
  self <- get ;;
  (if truthy (stream self)
   then on_stream PyAudio.stop_stream ;;; on_stream PyAudio.close
   else ret tt) ;;;
  zoom p set_p PyAudio.terminate.

(** ** class WebRTCClient *)

Inductive Callback : Type :=
| CbCreateOfferTask
| CbHandleAnswerTask (sdp : string).

Inductive Coroutine : Type :=
| CoCreateOffer
| CoHandleAnswer (sdp : string)
| CoPlayAudio (track : Aiortc.MediaStreamTrack).

Record WebRTCClient : Type := {
  pc : Aiortc.RTCPeerConnection;
  mqtt_client : Mqtt.Client;
  audio_track : AudioInputTrack;
  player_task : option nat;
  (* self.loop: callbacks handed over by [call_soon_threadsafe], the
     tasks created on it, and the exceptions of finished tasks *)
  ready : list Callback;
  tasks : list (nat * Coroutine);
  next_task : nat;
  unretrieved : list exn
}.

Definition set_pc (x : Aiortc.RTCPeerConnection) (c : WebRTCClient) :=
  {| pc := x; mqtt_client := mqtt_client c; audio_track := audio_track c;
     player_task := player_task c; ready := ready c; tasks := tasks c;
     next_task := next_task c; unretrieved := unretrieved c |}.

Definition set_mqtt_client (x : Mqtt.Client) (c : WebRTCClient) :=
  {| pc := pc c; mqtt_client := x; audio_track := audio_track c;
     player_task := player_task c; ready := ready c; tasks := tasks c;
     next_task := next_task c; unretrieved := unretrieved c |}.

Definition set_audio_track (x : AudioInputTrack) (c : WebRTCClient) :=
  {| pc := pc c; mqtt_client := mqtt_client c; audio_track := x;
     player_task := player_task c; ready := ready c; tasks := tasks c;
     next_task := next_task c; unretrieved := unretrieved c |}.

Definition set_ready (x : list Callback) (c : WebRTCClient) :=
  {| pc := pc c; mqtt_client := mqtt_client c; audio_track := audio_track c;
     player_task := player_task c; ready := x; tasks := tasks c;
     next_task := next_task c; unretrieved := unretrieved c |}.

(** [self.loop.call_soon_threadsafe(cb, ...)]. *)
Definition call_soon_threadsafe (cb : Callback) : M WebRTCClient unit :=
  modify (fun c => set_ready (ready c ++ [cb]) c).

(** [asyncio.ensure_future(co)] and [asyncio.create_task(co)]: the new
    task's number. *)
Definition create_task (co : Coroutine) : M WebRTCClient nat :=
  fun c =>
    (Ok (next_task c),
     {| pc := pc c; mqtt_client := mqtt_client c;
        audio_track := audio_track c; player_task := player_task c;
        ready := ready c;
        tasks := Asyncio.spawn (next_task c) co (tasks c);
        next_task := S (next_task c); unretrieved := unretrieved c |}).

Definition set_player_task (n : nat) : M WebRTCClient unit :=
  modify (fun c =>
    {| pc := pc c; mqtt_client := mqtt_client c;
       audio_track := audio_track c; player_task := Some n;
       ready := ready c; tasks := tasks c;
       next_task := next_task c; unretrieved := unretrieved c |}).

(** [WebRTCClient.__init__]. *)
Definition WebRTCClient_init (e : Aiortc.Engine) (h : PyAudio.Host)
  : result WebRTCClient :=
  match AudioInputTrack_init h with
  | Ok tr =>
    Ok {| pc := snd (Aiortc.addTrack (Aiortc.new e));
          mqtt_client := Mqtt.new "Windows_WebRTC_Client";
          audio_track := tr; player_task := None;
          ready := []; tasks := []; next_task := 0; unretrieved := [] |}
  | Raise x => Raise x
  end.

(** The handler of the engine's [track] event. *)
Definition on_track (track : Aiortc.MediaStreamTrack) : M WebRTCClient unit :=
  if String.eqb (Aiortc.kind track) "audio"
  then n <- create_task (CoPlayAudio track) ;; set_player_task n
  else ret tt.

(** One turn of the loop of [play_audio]: [true] to go on, [false] for
    [break]. *)
Definition play_audio_turn : M Sink.t bool :=
  try_except
    (frame <- zoom Sink.track Sink.set_track Aiortc.recv ;;
     pl <- lift (Sink.planes_0 frame) ;;
     zoom Sink.p Sink.set_p (PyAudio.write (Av.to_bytes pl)) ;;;
     ret true)
    (fun _ => ret false).

Definition play_audio (fuel : nat) (h : PyAudio.Host)
           (track : Aiortc.MediaStreamTrack)
  : option (result unit * Sink.t) :=
  let s0 := {| Sink.p := PyAudio.PyAudio h; Sink.track := track |} in
  match zoom Sink.p Sink.set_p (PyAudio.open false None) s0 with
  | (Raise e, s1) => Some (Raise e, s1)
  | (Ok _, s1) =>
    match Asyncio.while_true fuel play_audio_turn s1 with
    | None => None
    | Some (Raise e, s2) => Some (Raise e, s2)
    | Some (Ok _, s2) =>
      Some (zoom Sink.p Sink.set_p
              (PyAudio.stop_stream ;;; PyAudio.close ;;; PyAudio.terminate) s2)
    end
  end.

Definition on_connect (rc : nat) : M WebRTCClient unit :=
  call_soon_threadsafe CbCreateOfferTask.

Definition create_offer_task : M WebRTCClient unit :=
  create_task CoCreateOffer ;;; ret tt.

Definition create_offer : M WebRTCClient unit :=
  offer <- zoom pc set_pc Aiortc.createOffer ;;
  zoom pc set_pc (Aiortc.setLocalDescription offer) ;;;
  sdp <- zoom pc set_pc Aiortc.localDescription_sdp ;;
  zoom mqtt_client set_mqtt_client (Mqtt.publish OFFER_TOPIC sdp).

Definition on_message (msg : Mqtt.MQTTMessage) : M WebRTCClient unit :=
  payload <- lift (decode (Mqtt.payload msg)) ;;
  if String.eqb (Mqtt.topic msg) ANSWER_TOPIC
  then call_soon_threadsafe (CbHandleAnswerTask payload)
  else if String.eqb (Mqtt.topic msg) ICE_TOPIC
  then ret tt
  else ret tt.

Definition handle_answer_task (sdp : string) : M WebRTCClient unit :=
  create_task (CoHandleAnswer sdp) ;;; ret tt.

Definition handle_answer (sdp : string) : M WebRTCClient unit :=
  let answer := {| Aiortc.sdp := sdp; Aiortc.type := "answer" |} in
  zoom pc set_pc (Aiortc.setRemoteDescription answer).

Definition WebRTCClient_set_ptt (active : bool) : M WebRTCClient unit :=
  zoom audio_track set_audio_track (set_ptt active).

(** The bus side of the client: the network thread calls [on_message]
    for the messages the broker forwards to this client. *)
Definition broker_publishes (msg : Mqtt.MQTTMessage) : M WebRTCClient unit :=
  fun c =>
    if Mqtt.subscribed (mqtt_client c) (Mqtt.topic msg)
    then on_message msg c
    else (Ok tt, c).

(** Every entry point of the class, as the bus thread, the loop and the
    engine may call them, in any order. *)
Inductive Method : Type :=
| MOnConnect (rc : nat)
| MCreateOfferTask
| MCreateOffer
| MOnMessage (msg : Mqtt.MQTTMessage)
| MHandleAnswerTask (sdp : string)
| MHandleAnswer (sdp : string)
| MSetPtt (active : bool)
| MOnTrack (track : Aiortc.MediaStreamTrack).

Definition call (m : Method) : M WebRTCClient unit :=
  match m with
  | MOnConnect rc => on_connect rc
  | MCreateOfferTask => create_offer_task
  | MCreateOffer => create_offer
  | MOnMessage msg => on_message msg
  | MHandleAnswerTask sdp => handle_answer_task sdp
  | MHandleAnswer sdp => handle_answer sdp
  | MSetPtt active => WebRTCClient_set_ptt active
  | MOnTrack track => on_track track
  end.

Definition calls (ms : list Method) (c : WebRTCClient) : WebRTCClient :=
  fold_left (fun c m => snd (call m c)) ms c.

(** The playback tasks on the loop that consume a given track. *)
Definition consumers (track_id : nat) (c : WebRTCClient) : nat :=
  List.length
    (filter (fun t => match snd t with
                      | CoPlayAudio tr => Nat.eqb (Aiortc.id tr) track_id
                      | _ => false
                      end) (tasks c)).

(** The engine reports inbound tracks one after the other. *)
Definition notify (trs : list Aiortc.MediaStreamTrack) (c : WebRTCClient)
  : WebRTCClient :=
  fold_left (fun c tr => snd (on_track tr c)) trs c.

(** What the two other actors do to the microphone source: the keyboard
    thread sets the gate, the engine pulls a frame. *)
Inductive Action : Type :=
| SetPtt (active : bool)
| Pull.

Definition act (t : AudioInputTrack) (a : Action) : AudioInputTrack :=
  match a with
  | SetPtt b => snd (set_ptt b t)
  | Pull => snd (recv t)
  end.

Definition after (acts : list Action) (t : AudioInputTrack)
  : AudioInputTrack := fold_left act acts t.

End C_end.


(* ================================================================== *)
(** * s_end.py: the Responder                                          *)
(* ================================================================== *)

Module S_end.

Local Open Scope py_scope.
Local Open Scope string_scope.

Definition MQTT_BROKER : string := "localhost".
Definition OFFER_TOPIC : string := "walkie-talkie/offer".
Definition ANSWER_TOPIC : string := "walkie-talkie/answer".
Definition ICE_TOPIC : string := "walkie-talkie/ice".

Definition SAMPLE_RATE : Z := 48000.
Definition CHANNELS : nat := 1.
Definition CHUNK : nat := 960.

Inductive Callback : Type :=
| CbHandleOfferTask (sdp : string).

Inductive Coroutine : Type :=
| CoHandleOffer (sdp : string)
| CoPlayAudio (track : Aiortc.MediaStreamTrack).

Record WebRTCServer : Type := {
  pc : Aiortc.RTCPeerConnection;
  mqtt_client : Mqtt.Client;
  player_task : option nat;
  (* self.loop: callbacks handed over by [call_soon_threadsafe], the
     tasks created on it, and the exceptions of finished tasks *)
  ready : list Callback;
  tasks : list (nat * Coroutine);
  next_task : nat;
  unretrieved : list exn
}.

Definition set_pc (x : Aiortc.RTCPeerConnection) (s : WebRTCServer) :=
  {| pc := x; mqtt_client := mqtt_client s; player_task := player_task s;
     ready := ready s; tasks := tasks s; next_task := next_task s;
     unretrieved := unretrieved s |}.

Definition set_mqtt_client (x : Mqtt.Client) (s : WebRTCServer) :=
  {| pc := pc s; mqtt_client := x; player_task := player_task s;
     ready := ready s; tasks := tasks s; next_task := next_task s;
     unretrieved := unretrieved s |}.

Definition set_ready (x : list Callback) (s : WebRTCServer) :=
  {| pc := pc s; mqtt_client := mqtt_client s; player_task := player_task s;
     ready := x; tasks := tasks s; next_task := next_task s;
     unretrieved := unretrieved s |}.

Definition set_tasks (x : list (nat * Coroutine)) (s : WebRTCServer) :=
  {| pc := pc s; mqtt_client := mqtt_client s; player_task := player_task s;
     ready := ready s; tasks := x; next_task := next_task s;
     unretrieved := unretrieved s |}.

Definition note_exception (e : exn) (s : WebRTCServer) :=
  {| pc := pc s; mqtt_client := mqtt_client s; player_task := player_task s;
     ready := ready s; tasks := tasks s; next_task := next_task s;
     unretrieved := unretrieved s ++ [e] |}.

(** [WebRTCServer.__init__]. *)
Definition WebRTCServer_init (e : Aiortc.Engine) : WebRTCServer :=
  {| pc := Aiortc.new e; mqtt_client := Mqtt.new "Pi_WebRTC_Server";
     player_task := None; ready := []; tasks := []; next_task := 0;
     unretrieved := [] |}.

(** [self.loop.call_soon_threadsafe(cb, ...)]. *)
Definition call_soon_threadsafe (cb : Callback) : M WebRTCServer unit :=
  modify (fun s => set_ready (ready s ++ [cb]) s).

(** [asyncio.ensure_future(co)] and [asyncio.create_task(co)]: the new
    task's number. *)
Definition create_task (co : Coroutine) : M WebRTCServer nat :=
  fun s =>
    (Ok (next_task s),
     {| pc := pc s; mqtt_client := mqtt_client s;
        player_task := player_task s; ready := ready s;
        tasks := Asyncio.spawn (next_task s) co (tasks s);
        next_task := S (next_task s); unretrieved := unretrieved s |}).

Definition set_player_task (n : nat) : M WebRTCServer unit :=
  modify (fun s =>
    {| pc := pc s; mqtt_client := mqtt_client s; player_task := Some n;
       ready := ready s; tasks := tasks s; next_task := next_task s;
       unretrieved := unretrieved s |}).

(** The handler of the engine's [track] event. *)
Definition on_track (track : Aiortc.MediaStreamTrack) : M WebRTCServer unit :=
  if String.eqb (Aiortc.kind track) "audio"
  then n <- create_task (CoPlayAudio track) ;; set_player_task n
  else ret tt.

(** One turn of the loop of [play_audio]: [true] to go on, [false] for
    [break]. *)
Definition play_audio_turn : M Sink.t bool :=
  try_except
    (frame <- zoom Sink.track Sink.set_track Aiortc.recv ;;
     pl <- lift (Sink.planes_0 frame) ;;
     zoom Sink.p Sink.set_p (PyAudio.write (Av.to_bytes pl)) ;;;
     ret true)
    (fun _ => ret false).

Definition play_audio (fuel : nat) (h : PyAudio.Host)
           (track : Aiortc.MediaStreamTrack)
  : option (result unit * Sink.t) :=
  let s0 := {| Sink.p := PyAudio.PyAudio h; Sink.track := track |} in
  match zoom Sink.p Sink.set_p (PyAudio.open false None) s0 with
  | (Raise e, s1) => Some (Raise e, s1)
  | (Ok _, s1) =>
    match Asyncio.while_true fuel play_audio_turn s1 with
    | None => None
    | Some (Raise e, s2) => Some (Raise e, s2)
    | Some (Ok _, s2) =>
      Some (zoom Sink.p Sink.set_p
              (PyAudio.stop_stream ;;; PyAudio.close ;;; PyAudio.terminate) s2)
    end
  end.

Definition on_connect (rc : nat) : M WebRTCServer unit :=
  zoom mqtt_client set_mqtt_client
       (Mqtt.subscribe [(OFFER_TOPIC, 0); (ICE_TOPIC, 0)]).

Definition on_message (msg : Mqtt.MQTTMessage) : M WebRTCServer unit :=
  payload <- lift (decode (Mqtt.payload msg)) ;;
  if String.eqb (Mqtt.topic msg) OFFER_TOPIC
  then call_soon_threadsafe (CbHandleOfferTask payload)
  else if String.eqb (Mqtt.topic msg) ICE_TOPIC
  then ret tt
  else ret tt.

Definition handle_offer_task (sdp : string) : M WebRTCServer unit :=
  create_task (CoHandleOffer sdp) ;;; ret tt.

Definition handle_offer (sdp : string) : M WebRTCServer unit :=
  let offer := {| Aiortc.sdp := sdp; Aiortc.type := "offer" |} in
  zoom pc set_pc (Aiortc.setRemoteDescription offer) ;;;
  answer <- zoom pc set_pc Aiortc.createAnswer ;;
  zoom pc set_pc (Aiortc.setLocalDescription answer) ;;;
  sdp' <- zoom pc set_pc Aiortc.localDescription_sdp ;;
  zoom mqtt_client set_mqtt_client (Mqtt.publish ANSWER_TOPIC sdp').

(** The bus side of the server: the network thread calls [on_message]
    for the messages the broker forwards to this client. *)
Definition broker_publishes (msg : Mqtt.MQTTMessage) : M WebRTCServer unit :=
  fun s =>
    if Mqtt.subscribed (mqtt_client s) (Mqtt.topic msg)
    then on_message msg s
    else (Ok tt, s).

(** ** The event loop

    The callbacks queued by the network thread run first, in order; each
    creates a task.  A [handle_offer] task then runs to its end (its
    awaits are calls into the engine, and no other task of this program
    touches the connection); a [play_audio] task stays on the loop,
    waiting on its track.  An exception that ends a task is kept by the
    loop and never retrieved. *)
Definition run_callback (cb : Callback) : M WebRTCServer unit :=
  match cb with
  | CbHandleOfferTask sdp => handle_offer_task sdp
  end.

Fixpoint run_callbacks (cbs : list Callback) (s : WebRTCServer)
  : WebRTCServer :=
  match cbs with
  | [] => s
  | cb :: rest => run_callbacks rest (snd (run_callback cb s))
  end.

Definition finish (r : result unit * WebRTCServer) : WebRTCServer :=
  match r with
  | (Ok _, s) => s
  | (Raise e, s) => note_exception e s
  end.

Fixpoint run_tasks (ts : list (nat * Coroutine)) (s : WebRTCServer)
  : WebRTCServer :=
  match ts with
  | [] => s
  | (_, CoHandleOffer sdp) :: rest => run_tasks rest (finish (handle_offer sdp s))
  | (n, CoPlayAudio tr) :: rest =>
    let s' := run_tasks rest s in
    set_tasks ((n, CoPlayAudio tr) :: tasks s') s'
  end.

Definition run_until_idle (s : WebRTCServer) : WebRTCServer :=
  let s1 := run_callbacks (ready s) (set_ready [] s) in
  run_tasks (tasks s1) (set_tasks [] s1).

(** The answers published so far. *)
Definition answers (s : WebRTCServer) : list string :=
  flat_map (fun m => if String.eqb (fst m) ANSWER_TOPIC then [snd m] else [])
           (Mqtt.published (mqtt_client s)).

(** The playback tasks on the loop that consume a given track. *)
Definition consumers (track_id : nat) (s : WebRTCServer) : nat :=
  List.length
    (filter (fun t => match snd t with
                      | CoPlayAudio tr => Nat.eqb (Aiortc.id tr) track_id
                      | _ => false
                      end) (tasks s)).

(** The engine reports inbound tracks one after the other. *)
Definition notify (trs : list Aiortc.MediaStreamTrack) (s : WebRTCServer)
  : WebRTCServer :=
  fold_left (fun s tr => snd (on_track tr s)) trs s.

Definition is_playback (t : nat * Coroutine) : bool :=
  match snd t with CoPlayAudio _ => true | _ => false end.

End S_end.


(* ================================================================== *)
(** * Simulated collaborators, for concrete runs                       *)
(* ================================================================== *)

Module Sim.

Local Open Scope string_scope.

(** A sound card that accepts every call; a read of [n] frames returns
    [n] 16-bit samples of value 0x0101. *)
Definition host : PyAudio.Host :=
  {| PyAudio.on_open := fun _ => None;
     PyAudio.on_read := fun _ n => PyAudio.HwData (repeat x01 (n * 2));
     PyAudio.on_write := fun _ _ => None;
     PyAudio.on_stop_stream := fun _ => None;
     PyAudio.on_close := fun _ => None;
     PyAudio.on_terminate := fun _ => None |}.

(** The same card with a capture buffer that always overflows. *)
Definition overflowing_host : PyAudio.Host :=
  {| PyAudio.on_open := fun _ => None;
     PyAudio.on_read := fun _ n => PyAudio.HwOverflowed (repeat x07 (n * 2));
     PyAudio.on_write := fun _ _ => None;
     PyAudio.on_stop_stream := fun _ => None;
     PyAudio.on_close := fun _ => None;
     PyAudio.on_terminate := fun _ => None |}.

Definition last_local (past : list Aiortc.Call)
  : option Aiortc.RTCSessionDescription :=
  fold_left (fun acc c => match c with
                          | Aiortc.CSetLocalDescription d => Some d
                          | _ => acc
                          end) past None.

(** An engine that accepts every description, in any state. *)
Definition engine : Aiortc.Engine :=
  {| Aiortc.on_createOffer := fun _ =>
       Ok {| Aiortc.sdp := "v=0 offer"; Aiortc.type := "offer" |};
     Aiortc.on_createAnswer := fun _ =>
       Ok {| Aiortc.sdp := "v=0 answer"; Aiortc.type := "answer" |};
     Aiortc.on_setLocalDescription := fun _ _ => None;
     Aiortc.on_setRemoteDescription := fun _ _ => None;
     Aiortc.read_localDescription := last_local |}.

(** The microphone source [AudioInputTrack()] builds on [host], and on
    [overflowing_host] with the talk key held down. *)
Definition mic : C_end.AudioInputTrack :=
  {| C_end.p := PyAudio.record (PyAudio.COpen true (Some C_end.CHUNK))
                               (PyAudio.PyAudio host);
     C_end.stream := Some PyAudio.TheStream;
     C_end.is_active := false |}.

Definition hot_mic : C_end.AudioInputTrack :=
  {| C_end.p := PyAudio.record (PyAudio.COpen true (Some C_end.CHUNK))
                               (PyAudio.PyAudio overflowing_host);
     C_end.stream := Some PyAudio.TheStream;
     C_end.is_active := true |}.

(** The Caller [WebRTCClient()] builds on [engine] and [host]. *)
Definition client : C_end.WebRTCClient :=
  {| C_end.pc := {| Aiortc.engine := engine;
                    Aiortc.history := [Aiortc.CAddTrack] |};
     C_end.mqtt_client := Mqtt.new "Windows_WebRTC_Client";
     C_end.audio_track := mic;
     C_end.player_task := None;
     C_end.ready := []; C_end.tasks := []; C_end.next_task := 0;
     C_end.unretrieved := [] |}.

Definition ascii_bytes (s : string) : bytes := list_byte_of_string s.

Definition offer_msg : Mqtt.MQTTMessage :=
  {| Mqtt.topic := S_end.OFFER_TOPIC; Mqtt.payload := ascii_bytes "v=0 offer" |}.

Definition answer_msg : Mqtt.MQTTMessage :=
  {| Mqtt.topic := C_end.ANSWER_TOPIC;
     Mqtt.payload := ascii_bytes "v=0 answer" |}.

Definition remote_audio : Aiortc.MediaStreamTrack :=
  {| Aiortc.kind := "audio"; Aiortc.id := 7;
     Aiortc.incoming :=
       [ {| Av.format := "s16"; Av.layout := "mono"; Av.samples := 2;
            Av.planes := [ {| Av.buffer_size := 4;
                              Av.content := Some [x01; x02; x03; x04] |} ];
            Av.pts := Some 0%Z; Av.time_base := Some (1%Z, 48000%Z) |};
         {| Av.format := "s16"; Av.layout := "mono"; Av.samples := 2;
            Av.planes := [ {| Av.buffer_size := 4;
                              Av.content := Some [x05; x06; x07; x08] |} ];
            Av.pts := Some 2%Z; Av.time_base := Some (1%Z, 48000%Z) |} ];
     Aiortc.pulls := 0 |}.

(** A Responder that is connected to the bus and idle. *)
Definition server0 : S_end.WebRTCServer :=
  snd (S_end.on_connect 0 (S_end.WebRTCServer_init engine)).

(** The same Responder once it has handled one offer. *)
Definition server1 : S_end.WebRTCServer :=
  S_end.run_until_idle (snd (S_end.broker_publishes offer_msg server0)).

End Sim.


(* ================================================================== *)
(** * The microphone source under its two users                        *)
(* ================================================================== *)

Module Mic.

(** The value the gate holds after the actions [acts], from [b]: the
    argument of the last [set_ptt]. *)
Fixpoint gate_after (acts : list C_end.Action) (b : bool) : bool :=
  match acts with
  | [] => b
  | C_end.SetPtt x :: rest => gate_after rest x
  | C_end.Pull :: rest => gate_after rest b
  end.

(** One turn of [keyboard_listener] in the main program of c_end.py:
    [pressed] is what [keyboard.is_pressed('space')] answers. *)
Definition keyboard_poll (pressed : bool) : M C_end.WebRTCClient unit :=
  if pressed then C_end.WebRTCClient_set_ptt true
  else C_end.WebRTCClient_set_ptt false.

(** The listener thread over the successive states of the key. *)
Definition keyboard_listener (keys : list bool) (c : C_end.WebRTCClient)
  : C_end.WebRTCClient :=
  fold_left (fun c k => snd (keyboard_poll k c)) keys c.

End Mic.

(* ================================================================== *)
(** * The Caller's event loop                                          *)
(* ================================================================== *)

Module C_loop.

Import C_end.

Definition set_tasks (x : list (nat * Coroutine)) (c : WebRTCClient) :=
  {| pc := pc c; mqtt_client := mqtt_client c; audio_track := audio_track c;
     player_task := player_task c; ready := ready c; tasks := x;
     next_task := next_task c; unretrieved := unretrieved c |}.

Definition note_exception (e : exn) (c : WebRTCClient) :=
  {| pc := pc c; mqtt_client := mqtt_client c; audio_track := audio_track c;
     player_task := player_task c; ready := ready c; tasks := tasks c;
     next_task := next_task c; unretrieved := unretrieved c ++ [e] |}.

(** The loop runs as the Responder's does: the queued callbacks first,
    each creating a task; then [create_offer] and [handle_answer] tasks
    to their end, while [play_audio] tasks stay on the loop. *)
Definition run_callback (cb : Callback) : M WebRTCClient unit :=
  match cb with
  | CbCreateOfferTask => create_offer_task
  | CbHandleAnswerTask sdp => handle_answer_task sdp
  end.

Fixpoint run_callbacks (cbs : list Callback) (c : WebRTCClient)
  : WebRTCClient :=
  match cbs with
  | [] => c
  | cb :: rest => run_callbacks rest (snd (run_callback cb c))
  end.

Definition finish (r : result unit * WebRTCClient) : WebRTCClient :=
  match r with
  | (Ok _, c) => c
  | (Raise e, c) => note_exception e c
  end.

Fixpoint run_tasks (ts : list (nat * Coroutine)) (c : WebRTCClient)
  : WebRTCClient :=
  match ts with
  | [] => c
  | (_, CoCreateOffer) :: rest => run_tasks rest (finish (create_offer c))
  | (_, CoHandleAnswer sdp) :: rest =>
    run_tasks rest (finish (handle_answer sdp c))
  | (n, CoPlayAudio tr) :: rest =>
    let c' := run_tasks rest c in
    set_tasks ((n, CoPlayAudio tr) :: tasks c') c'
  end.

Definition run_until_idle (c : WebRTCClient) : WebRTCClient :=
  let c1 := run_callbacks (ready c) (set_ready [] c) in
  run_tasks (tasks c1) (set_tasks [] c1).

Definition is_playback (t : nat * Coroutine) : bool :=
  match snd t with CoPlayAudio _ => true | _ => false end.

End C_loop.

(* ================================================================== *)
(** * The Responder over a run of bus messages                         *)
(* ================================================================== *)

Module S_run.

(** The broker forwards one message and the loop runs until idle. *)
Definition receive (s : S_end.WebRTCServer) (msg : Mqtt.MQTTMessage)
  : S_end.WebRTCServer :=
  S_end.run_until_idle (snd (S_end.broker_publishes msg s)).

Definition receive_all (msgs : list Mqtt.MQTTMessage)
           (s : S_end.WebRTCServer) : S_end.WebRTCServer :=
  fold_left receive msgs s.

(** How many of the messages are on the Offer topic. *)
Definition offers_in (msgs : list Mqtt.MQTTMessage) : nat :=
  List.length
    (filter (fun m => String.eqb (Mqtt.topic m) S_end.OFFER_TOPIC) msgs).

(** Nothing is queued and only playback tasks are on the loop. *)
Definition idle (s : S_end.WebRTCServer) : Prop :=
  S_end.ready s = [] /\
  forallb S_end.is_playback (S_end.tasks s) = true.

End S_run.

(* ================================================================== *)
(** * The two endpoints on one bus                                     *)
(* ================================================================== *)

Module Bus.

(** A published message as the broker forwards it: [publish] sends the
    UTF-8 encoding of a [str] payload. *)
Definition wire (m : string * string) : Mqtt.MQTTMessage :=
  {| Mqtt.topic := fst m; Mqtt.payload := list_byte_of_string (snd m) |}.

(** The broker offers the Responder, in order, what was published. *)
Definition to_server (sent : list (string * string))
           (s : S_end.WebRTCServer) : S_end.WebRTCServer :=
  S_run.receive_all (map wire sent) s.

(** The broker offers the Caller, in order, what was published. *)
Definition to_client (sent : list (string * string))
           (c : C_end.WebRTCClient) : C_end.WebRTCClient :=
  fold_left
    (fun c m => C_loop.run_until_idle (snd (C_end.broker_publishes (wire m) c)))
    sent c.

End Bus.

(* ================================================================== *)
(** * More simulated collaborators                                     *)
(* ================================================================== *)

Module Sim2.

Local Open Scope string_scope.

(** An output device that refuses the second write. *)
Definition choking_host : PyAudio.Host :=
  {| PyAudio.on_open := fun _ => None;
     PyAudio.on_read := fun _ n => PyAudio.HwData (repeat x01 (n * 2));
     PyAudio.on_write := fun past _ =>
       if Nat.leb 2 (List.length past) then Some OSError else None;
     PyAudio.on_stop_stream := fun _ => None;
     PyAudio.on_close := fun _ => None;
     PyAudio.on_terminate := fun _ => None |}.

(** An engine that refuses every remote description. *)
Definition deaf_engine : Aiortc.Engine :=
  {| Aiortc.on_createOffer := Aiortc.on_createOffer Sim.engine;
     Aiortc.on_createAnswer := Aiortc.on_createAnswer Sim.engine;
     Aiortc.on_setLocalDescription := fun _ _ => None;
     Aiortc.on_setRemoteDescription :=
       fun _ _ => Some (LibraryError "InvalidStateError");
     Aiortc.read_localDescription := Sim.last_local |}.

(** A connected Responder on that engine. *)
Definition deaf_server : S_end.WebRTCServer :=
  snd (S_end.on_connect 0 (S_end.WebRTCServer_init deaf_engine)).

Definition ice_msg : Mqtt.MQTTMessage :=
  {| Mqtt.topic := S_end.ICE_TOPIC;
     Mqtt.payload := Sim.ascii_bytes "candidate:0 1 UDP" |}.

(** The Caller once it has connected and sent its offer. *)
Definition client1 : C_end.WebRTCClient :=
  C_loop.run_until_idle (snd (C_end.on_connect 0 Sim.client)).

End Sim2.

(* ================================================================== *)
(** * Properties                                                       *)
(* ================================================================== *)

Unset Implicit Arguments.

(** ** The int16 view is lossless *)

Lemma byte_to_Z_range (b : byte) : (0 <= Np.byte_to_Z b < 256)%Z.
Proof.
  unfold Np.byte_to_Z.
  pose proof (Byte.to_N_bounded b) as H.
  lia.
Qed.

Lemma byte_of_Z_mod (z : Z) (b : byte) :
  (z mod 256 = Np.byte_to_Z b)%Z -> Np.byte_of_Z z = b.
Proof.
  intros H. unfold Np.byte_of_Z. rewrite H.
  unfold Np.byte_to_Z. rewrite N2Z.id, Byte.of_to_N. reflexivity.
Qed.

Lemma int16_of_mod (lo hi : byte) :
  (Np.int16_of lo hi mod 65536 = Np.byte_to_Z lo + 256 * Np.byte_to_Z hi)%Z.
Proof.
  pose proof (byte_to_Z_range lo) as Hl.
  pose proof (byte_to_Z_range hi) as Hh.
  unfold Np.int16_of. cbv zeta.
  destruct (Z.ltb_spec (Np.byte_to_Z lo + 256 * Np.byte_to_Z hi) 32768).
  - apply Z.mod_small. lia.
  - symmetry. apply (Z.mod_unique _ _ (-1)); lia.
Qed.

Lemma list_pair_ind (A : Type) (P : list A -> Prop) :
  P [] -> (forall x, P [x]) ->
  (forall x y l, P l -> P (x :: y :: l)) ->
  forall l, P l.
Proof.
  intros H0 H1 H2 l.
  assert (P l /\ forall x, P (x :: l)) as [H _]; [| exact H].
  induction l as [| a l [IHa IHb]]; split; auto.
Qed.

Lemma tobytes_frombuffer (data : bytes) (a : list Z) :
  Np.frombuffer_int16 data = Ok a -> Np.tobytes a = data.
Proof.
  revert a. induction data as [| x | lo hi rest IH] using list_pair_ind;
    intros a H.
  - inversion H. reflexivity.
  - discriminate H.
  - cbn [Np.frombuffer_int16] in H.
    destruct (Np.frombuffer_int16 rest) as [a' |]; [| discriminate H].
    inversion H; subst a; clear H.
    cbn [Np.tobytes]. cbv zeta. rewrite int16_of_mod, (IH a' eq_refl).
    pose proof (byte_to_Z_range lo) as Hl.
    pose proof (byte_to_Z_range hi) as Hh.
    f_equal; [| f_equal]; apply byte_of_Z_mod.
    + symmetry. apply (Z.mod_unique _ _ (Np.byte_to_Z hi)); lia.
    + rewrite <- (Z.div_unique _ 256 (Np.byte_to_Z hi) (Np.byte_to_Z lo))
        by lia.
      apply Z.mod_small; lia.
Qed.

(** ** The microphone source *)

(** Every pull stops at its first line: the timestamp is asked of a
    method the object does not have, before the gate is read and before
    the device is touched. *)
Lemma recv_raises (t : C_end.AudioInputTrack) :
  C_end.recv t = (Raise AttributeError, t).
Proof. reflexivity. Qed.

Lemma mic_is_made_by_init : C_end.AudioInputTrack_init Sim.host = Ok Sim.mic.
Proof. reflexivity. Qed.

Lemma hot_mic_is_made_by_init :
  option_map (fun t => snd (C_end.set_ptt true t))
             (match C_end.AudioInputTrack_init Sim.overflowing_host with
              | Ok t => Some t
              | Raise _ => None
              end) = Some Sim.hot_mic.
Proof. reflexivity. Qed.

Lemma after_keeps_device (acts : list C_end.Action) :
  forall t,
    C_end.p (C_end.after acts t) = C_end.p t /\
    C_end.stream (C_end.after acts t) = C_end.stream t.
Proof.
  unfold C_end.after.
  induction acts as [| a acts IH]; intros t; [split; reflexivity |].
  cbn [fold_left]. destruct (IH (C_end.act t a)) as [Hp Hs].
  rewrite Hp, Hs. destruct a as [b |]; split; reflexivity.
Qed.

(** C10, as the code has it: a pull made with the gate closed performs no
    read on the capture device, whose handle and record of calls are the
    same after the pull as before; but no silence frame is built either:
    the pull raises [AttributeError] at the call of [next_timestamp],
    before the gate is looked at. *)
Theorem closed_gate_pull_raises (t : C_end.AudioInputTrack) :
  C_end.is_active t = false ->
  fst (C_end.recv t) = Raise AttributeError /\
  C_end.p (snd (C_end.recv t)) = C_end.p t /\
  C_end.stream (snd (C_end.recv t)) = C_end.stream t /\
  C_end.is_active (snd (C_end.recv t)) = false.
Proof.
  intros Ha. rewrite recv_raises. cbn [fst snd].
  repeat split. exact Ha.
Qed.

Lemma closed_gate_pull_raises_witness :
  C_end.is_active Sim.mic = false /\
  fst (C_end.recv Sim.mic) = Raise AttributeError.
Proof.
  split; [reflexivity |].
  apply (closed_gate_pull_raises Sim.mic). reflexivity.
Defined.

(** C5, as the code has it: whatever the keyboard thread and the engine
    did before, the pull that follows [set_ptt(False)] and the pull that
    follows [set_ptt(True)] both raise [AttributeError] at the call of
    [next_timestamp]: no frame comes back, all zero or read from the
    device, and the device is not read.  The gate itself holds the value
    just set. *)
Theorem pull_after_set_ptt_raises (acts : list C_end.Action)
        (t : C_end.AudioInputTrack) (active : bool) :
  let t' := snd (C_end.set_ptt active (C_end.after acts t)) in
  C_end.is_active t' = active /\
  fst (C_end.recv t') = Raise AttributeError /\
  (forall f, fst (C_end.recv t') <> Ok f) /\
  PyAudio.history (C_end.p (snd (C_end.recv t'))) =
    PyAudio.history (C_end.p t).
Proof.
  intros t'. rewrite recv_raises. cbn [fst snd].
  split; [reflexivity |]. split; [reflexivity |].
  split; [intros f; discriminate |].
  unfold t'. cbn [C_end.set_ptt modify snd C_end.set_is_active C_end.p].
  destruct (after_keeps_device acts t) as [Hp _]. rewrite Hp. reflexivity.
Qed.

(** C8, as the code has it: with the gate open and a capture device that
    would signal an overflow on the next read, the pull does raise:
    [AttributeError] comes out of the call of [next_timestamp] before the
    device is read, so the overflow is never met and no frame carries the
    device's data. *)
Theorem open_gate_pull_raises_before_read
        (t : C_end.AudioInputTrack) (data : bytes) :
  C_end.is_active t = true -> C_end.stream t <> None ->
  PyAudio.on_read (PyAudio.host (C_end.p t))
                  (PyAudio.history (C_end.p t)) C_end.CHUNK
    = PyAudio.HwOverflowed data ->
  fst (C_end.recv t) = Raise AttributeError /\
  PyAudio.history (C_end.p (snd (C_end.recv t))) =
    PyAudio.history (C_end.p t).
Proof.
  intros _ _ _. rewrite recv_raises. split; reflexivity.
Qed.

Lemma open_gate_pull_raises_before_read_witness :
  fst (C_end.recv Sim.hot_mic) = Raise AttributeError /\
  PyAudio.history (C_end.p (snd (C_end.recv Sim.hot_mic))) =
    [PyAudio.COpen true (Some 960)].
Proof.
  apply (open_gate_pull_raises_before_read Sim.hot_mic (repeat x07 1920)).
  - reflexivity.
  - discriminate.
  - reflexivity.
Defined.

(** C4, as the code has it: [stop] never clears [self.stream], so the
    guard [if self.stream] holds again on a second call.  After a first
    [stop] that returned, the handle is still in place and the release
    calls have been made once; the second [stop] calls [stop_stream] on
    the closed stream again, and if it returns without error it has made
    the three release calls a second time. *)
Theorem stop_twice_releases_twice (t : C_end.AudioInputTrack) :
  C_end.stream t <> None ->
  fst (C_end.stop t) = Ok tt ->
  let t1 := snd (C_end.stop t) in
  C_end.stream t1 = C_end.stream t /\
  PyAudio.history (C_end.p t1) =
    PyAudio.history (C_end.p t) ++ Sink.release_calls /\
  exists rest,
    PyAudio.history (C_end.p (snd (C_end.stop t1))) =
      PyAudio.history (C_end.p t1) ++ PyAudio.CStopStream :: rest /\
    (fst (C_end.stop t1) = Ok tt ->
     rest = [PyAudio.CClose; PyAudio.CTerminate]).
Proof.
  intros Hs. destruct t as [p0 [st |] act]; [clear Hs | contradiction Hs; reflexivity].
  unfold C_end.stop, bind, get, C_end.on_stream, zoom, C_end.truthy,
    PyAudio.stop_stream, PyAudio.close, PyAudio.terminate, PyAudio.answer,
    C_end.set_p, PyAudio.record.
  cbn [C_end.stream C_end.p PyAudio.host PyAudio.history fst snd
       C_end.is_active].
  destruct (PyAudio.on_stop_stream _ (PyAudio.history p0));
    cbn [C_end.stream C_end.p PyAudio.host PyAudio.history fst snd];
    [discriminate |].
  destruct (PyAudio.on_close _ (PyAudio.history p0 ++ _));
    cbn [C_end.stream C_end.p PyAudio.host PyAudio.history fst snd];
    [discriminate |].
  destruct (PyAudio.on_terminate _ ((PyAudio.history p0 ++ _) ++ _));
    cbn [C_end.stream C_end.p PyAudio.host PyAudio.history fst snd];
    [discriminate |].
  intros _. split; [reflexivity |]. split.
  { unfold Sink.release_calls. rewrite <- !app_assoc. reflexivity. }
  destruct (PyAudio.on_stop_stream _ _);
    cbn [C_end.stream C_end.p PyAudio.host PyAudio.history fst snd].
  { exists []. split; [reflexivity | discriminate]. }
  destruct (PyAudio.on_close _ _);
    cbn [C_end.stream C_end.p PyAudio.host PyAudio.history fst snd].
  { exists [PyAudio.CClose]. split; [| discriminate].
    rewrite <- !app_assoc. reflexivity. }
  destruct (PyAudio.on_terminate _ _);
    cbn [C_end.stream C_end.p PyAudio.host PyAudio.history fst snd];
    exists [PyAudio.CClose; PyAudio.CTerminate];
    (split; [rewrite <- !app_assoc; reflexivity | reflexivity]).
Qed.

Lemma stop_twice_releases_twice_witness :
  fst (C_end.stop (snd (C_end.stop Sim.mic))) = Ok tt /\
  PyAudio.history (C_end.p (snd (C_end.stop (snd (C_end.stop Sim.mic))))) =
    [PyAudio.COpen true (Some 960);
     PyAudio.CStopStream; PyAudio.CClose; PyAudio.CTerminate;
     PyAudio.CStopStream; PyAudio.CClose; PyAudio.CTerminate].
Proof.
  split; [reflexivity |].
  destruct (stop_twice_releases_twice Sim.mic ltac:(discriminate) eq_refl)
    as [_ [H1 [rest [H2 H3]]]].
  rewrite H2, H1, (H3 eq_refl). reflexivity.
Defined.

(** ** Signalling on the bus *)

Lemma client_is_made_by_init :
  C_end.WebRTCClient_init Sim.engine Sim.host = Ok Sim.client.
Proof. reflexivity. Qed.

Lemma call_keeps_subscriptions (m : C_end.Method) (c : C_end.WebRTCClient) :
  Mqtt.subscriptions (C_end.mqtt_client (snd (C_end.call m c))) =
  Mqtt.subscriptions (C_end.mqtt_client c).
Proof.
  destruct c as [[e h] mq tr pt rd ts nt un].
  destruct m as [rc | | | msg | sdp | sdp | b | track];
    unfold C_end.call; try reflexivity.
  - unfold C_end.create_offer, bind, zoom, Aiortc.createOffer,
      Aiortc.setLocalDescription, Aiortc.localDescription_sdp,
      Aiortc.localDescription, Aiortc.record.
    cbn [C_end.pc C_end.mqtt_client Aiortc.engine Aiortc.history
         C_end.set_pc fst snd].
    destruct (Aiortc.on_createOffer e h) as [offer | x]; [| reflexivity].
    cbn [C_end.pc C_end.mqtt_client Aiortc.engine Aiortc.history
         C_end.set_pc fst snd].
    destruct (Aiortc.on_setLocalDescription e _ offer); [reflexivity |].
    cbn [C_end.pc C_end.mqtt_client Aiortc.engine Aiortc.history
         C_end.set_pc fst snd].
    destruct (Aiortc.read_localDescription e _); reflexivity.
  - unfold C_end.on_message, bind, lift.
    destruct (decode (Mqtt.payload msg)); [| reflexivity].
    destruct (String.eqb (Mqtt.topic msg) C_end.ANSWER_TOPIC);
      [reflexivity |].
    destruct (String.eqb (Mqtt.topic msg) C_end.ICE_TOPIC); reflexivity.
  - unfold C_end.handle_answer, zoom, Aiortc.setRemoteDescription.
    cbn [C_end.pc Aiortc.engine Aiortc.history].
    destruct (Aiortc.on_setRemoteDescription e h _); reflexivity.
  - unfold C_end.on_track.
    destruct (String.eqb (Aiortc.kind track) "audio"); reflexivity.
Qed.

Lemma calls_keep_subscriptions (ms : list C_end.Method) :
  forall c,
    Mqtt.subscriptions (C_end.mqtt_client (C_end.calls ms c)) =
    Mqtt.subscriptions (C_end.mqtt_client c).
Proof.
  unfold C_end.calls.
  induction ms as [| m ms IH]; intros c; [reflexivity |].
  cbn [fold_left]. rewrite IH. apply call_keeps_subscriptions.
Qed.

(** C1, as the code has it: on connect the Responder subscribes to the
    Offer and IceCandidate topics, and the Caller does not subscribe to
    the Offer topic; but the Caller does not subscribe to the Answer topic
    either ([on_connect] only schedules [create_offer], and no method of
    the class ever subscribes), so an answer published after its connect
    never reaches its [on_message]: the client is left as it was, with no
    [handle_answer] queued. *)
Theorem caller_never_subscribes
        (e : Aiortc.Engine) (h : PyAudio.Host) (e' : Aiortc.Engine)
        (c : C_end.WebRTCClient) (rc : nat) (ms : list C_end.Method) :
  C_end.WebRTCClient_init e h = Ok c ->
  let s1 := snd (S_end.on_connect rc (S_end.WebRTCServer_init e')) in
  let c1 := C_end.calls ms (snd (C_end.on_connect rc c)) in
  Mqtt.subscriptions (S_end.mqtt_client s1) =
    [(S_end.OFFER_TOPIC, 0); (S_end.ICE_TOPIC, 0)] /\
  Mqtt.subscribed (C_end.mqtt_client c1) C_end.OFFER_TOPIC = false /\
  Mqtt.subscribed (C_end.mqtt_client c1) C_end.ANSWER_TOPIC = false /\
  forall payload,
    C_end.broker_publishes
      {| Mqtt.topic := C_end.ANSWER_TOPIC; Mqtt.payload := payload |} c1
    = (Ok tt, c1).
Proof.
  intros Hc s1 c1.
  assert (Mqtt.subscriptions (C_end.mqtt_client c1) = []) as Hsub.
  { unfold c1. rewrite calls_keep_subscriptions.
    unfold C_end.WebRTCClient_init in Hc.
    destruct (C_end.AudioInputTrack_init h); [| discriminate Hc].
    inversion Hc. reflexivity. }
  split; [reflexivity |].
  unfold C_end.broker_publishes, Mqtt.subscribed. rewrite Hsub.
  repeat split.
Qed.

Lemma caller_never_subscribes_witness :
  C_end.broker_publishes Sim.answer_msg
    (C_end.calls [C_end.MCreateOfferTask; C_end.MCreateOffer]
                 (snd (C_end.on_connect 0 Sim.client)))
  = (Ok tt,
     C_end.calls [C_end.MCreateOfferTask; C_end.MCreateOffer]
                 (snd (C_end.on_connect 0 Sim.client))).
Proof.
  apply (caller_never_subscribes Sim.engine Sim.host Sim.engine Sim.client 0
           [C_end.MCreateOfferTask; C_end.MCreateOffer] eq_refl).
Defined.

(** C9, as the code has it: both handlers decode the payload before they
    look at the topic.  A message on the IceCandidate topic leaves the
    endpoint unchanged, and is dropped without error when its payload is
    well-formed UTF-8 (the empty payload is); when it is not, as for the
    single byte 0xFF, the handler raises [UnicodeDecodeError]. *)
Theorem ice_message_is_decoded_first
        (payload : bytes) (s : S_end.WebRTCServer) (c : C_end.WebRTCClient) :
  S_end.on_message
    {| Mqtt.topic := S_end.ICE_TOPIC; Mqtt.payload := payload |} s
  = (if utf8_valid payload then Ok tt else Raise UnicodeDecodeError, s) /\
  C_end.on_message
    {| Mqtt.topic := C_end.ICE_TOPIC; Mqtt.payload := payload |} c
  = (if utf8_valid payload then Ok tt else Raise UnicodeDecodeError, c) /\
  utf8_valid [] = true /\
  utf8_valid [xff] = false /\
  fst (S_end.on_message
         {| Mqtt.topic := S_end.ICE_TOPIC; Mqtt.payload := [xff] |} s)
  = Raise UnicodeDecodeError /\
  fst (C_end.on_message
         {| Mqtt.topic := C_end.ICE_TOPIC; Mqtt.payload := [xff] |} c)
  = Raise UnicodeDecodeError.
Proof.
  unfold S_end.on_message, C_end.on_message, bind, lift, decode.
  cbn [Mqtt.payload Mqtt.topic].
  repeat split; destruct (utf8_valid payload); reflexivity.
Qed.

(** ** The Responder's answer to an offer *)

Lemma set_tasks_eta (s : S_end.WebRTCServer) :
  S_end.set_tasks (S_end.tasks s) s = s.
Proof. destruct s; reflexivity. Qed.

(** The playback tasks stay on the loop while the tasks behind them
    run. *)
Lemma run_tasks_playbacks (ts rest : list (nat * S_end.Coroutine)) :
  forallb S_end.is_playback ts = true ->
  forall s,
    S_end.run_tasks (ts ++ rest) s =
    S_end.set_tasks (ts ++ S_end.tasks (S_end.run_tasks rest s))
                    (S_end.run_tasks rest s).
Proof.
  induction ts as [| [n co] ts IH]; intros Hp s.
  - cbn [app]. symmetry. apply set_tasks_eta.
  - cbn [forallb] in Hp. apply andb_prop in Hp. destruct Hp as [Hco Hts].
    destruct co as [sdp | tr]; [discriminate Hco |].
    cbn [app S_end.run_tasks]. rewrite (IH Hts s).
    reflexivity.
Qed.

(** One run of [handle_offer] on an engine that accepts its calls. *)
Lemma handle_offer_accepted (s : S_end.WebRTCServer) (sdp : string)
      (ans d : Aiortc.RTCSessionDescription) :
  let e := Aiortc.engine (S_end.pc s) in
  let h := Aiortc.history (S_end.pc s) in
  let offer := {| Aiortc.sdp := sdp; Aiortc.type := "offer" |} in
  Aiortc.on_setRemoteDescription e h offer = None ->
  Aiortc.on_createAnswer e (h ++ [Aiortc.CSetRemoteDescription offer])
    = Ok ans ->
  Aiortc.on_setLocalDescription e
    (h ++ [Aiortc.CSetRemoteDescription offer; Aiortc.CCreateAnswer]) ans
    = None ->
  Aiortc.read_localDescription e
    (h ++ [Aiortc.CSetRemoteDescription offer; Aiortc.CCreateAnswer;
           Aiortc.CSetLocalDescription ans]) = Some d ->
  S_end.handle_offer sdp s =
  (Ok tt,
   S_end.set_mqtt_client
     (snd (Mqtt.publish S_end.ANSWER_TOPIC (Aiortc.sdp d)
                        (S_end.mqtt_client s)))
     (S_end.set_pc
        {| Aiortc.engine := e;
           Aiortc.history :=
             h ++ [Aiortc.CSetRemoteDescription offer; Aiortc.CCreateAnswer;
                   Aiortc.CSetLocalDescription ans] |} s)).
Proof.
  destruct s as [[e0 h0] mq pt rd ts nt un].
  cbv zeta. cbn [S_end.pc Aiortc.engine Aiortc.history].
  intros H1 H2 H3 H4.
  unfold S_end.handle_offer, bind, zoom, Aiortc.setRemoteDescription,
    Aiortc.createAnswer, Aiortc.setLocalDescription,
    Aiortc.localDescription_sdp, Aiortc.localDescription, Aiortc.record.
  cbn [S_end.pc S_end.mqtt_client Aiortc.engine Aiortc.history
       S_end.set_pc fst snd].
  rewrite H1.
  cbn [S_end.pc S_end.mqtt_client Aiortc.engine Aiortc.history
       S_end.set_pc fst snd].
  rewrite H2.
  cbn [S_end.pc S_end.mqtt_client Aiortc.engine Aiortc.history
       S_end.set_pc fst snd].
  rewrite <- !app_assoc. cbn [app]. rewrite H3.
  cbn [S_end.pc S_end.mqtt_client Aiortc.engine Aiortc.history
       S_end.set_pc fst snd].
  rewrite <- ?app_assoc. cbn [app]. rewrite H4.
  reflexivity.
Qed.

(** An offer message, from the bus to the published answer. *)
Lemma offer_is_answered (s : S_end.WebRTCServer) (payload : bytes)
      (ans d : Aiortc.RTCSessionDescription) :
  let e := Aiortc.engine (S_end.pc s) in
  let h := Aiortc.history (S_end.pc s) in
  let offer := {| Aiortc.sdp := string_of_list_byte payload;
                  Aiortc.type := "offer" |} in
  Mqtt.subscribed (S_end.mqtt_client s) S_end.OFFER_TOPIC = true ->
  utf8_valid payload = true ->
  S_end.ready s = [] ->
  forallb S_end.is_playback (S_end.tasks s) = true ->
  Aiortc.on_setRemoteDescription e h offer = None ->
  Aiortc.on_createAnswer e (h ++ [Aiortc.CSetRemoteDescription offer])
    = Ok ans ->
  Aiortc.on_setLocalDescription e
    (h ++ [Aiortc.CSetRemoteDescription offer; Aiortc.CCreateAnswer]) ans
    = None ->
  Aiortc.read_localDescription e
    (h ++ [Aiortc.CSetRemoteDescription offer; Aiortc.CCreateAnswer;
           Aiortc.CSetLocalDescription ans]) = Some d ->
  let s' := S_end.run_until_idle
              (snd (S_end.broker_publishes
                      {| Mqtt.topic := S_end.OFFER_TOPIC;
                         Mqtt.payload := payload |} s)) in
  Aiortc.history (S_end.pc s') =
    h ++ [Aiortc.CSetRemoteDescription offer; Aiortc.CCreateAnswer;
          Aiortc.CSetLocalDescription ans] /\
  Mqtt.published (S_end.mqtt_client s') =
    Mqtt.published (S_end.mqtt_client s)
      ++ [(S_end.ANSWER_TOPIC, Aiortc.sdp d)] /\
  S_end.tasks s' = S_end.tasks s /\
  S_end.ready s' = [] /\
  S_end.unretrieved s' = S_end.unretrieved s.
Proof.
  intros e h offer Hsub Hutf Hrd Hts H1 H2 H3 H4 s'.
  unfold s', S_end.broker_publishes. cbn [Mqtt.topic]. rewrite Hsub.
  unfold S_end.on_message, bind, lift, decode. cbn [Mqtt.payload Mqtt.topic].
  rewrite Hutf.
  change (String.eqb S_end.OFFER_TOPIC S_end.OFFER_TOPIC) with true.
  cbv iota.
  unfold S_end.run_until_idle, S_end.call_soon_threadsafe, modify.
  cbn [snd S_end.ready S_end.set_ready]. rewrite Hrd.
  cbn [app S_end.run_callbacks S_end.run_callback].
  unfold S_end.handle_offer_task, bind, S_end.create_task, ret,
    Asyncio.spawn.
  cbn [snd S_end.tasks S_end.set_ready S_end.set_tasks].
  rewrite (run_tasks_playbacks _ _ Hts).
  cbn [S_end.run_tasks].
  match goal with
  | |- context [S_end.handle_offer ?x ?y] =>
    rewrite (handle_offer_accepted y x ans d H1 H2 H3 H4)
  end.
  cbn [S_end.finish S_end.set_tasks S_end.set_mqtt_client S_end.set_pc
       S_end.pc S_end.mqtt_client S_end.tasks S_end.ready
       S_end.unretrieved Aiortc.history].
  rewrite app_nil_r. repeat split.
Qed.

(** C6: a Responder that has just connected and receives one offer
    applies it as the remote description, then creates an answer, then
    sets that answer as the local description, in this order and nothing
    else; when the engine accepts these calls, exactly one message is
    published, on the Answer topic, and the task ends without error. *)
Theorem first_offer_is_answered_once
        (e : Aiortc.Engine) (rc : nat) (payload : bytes)
        (ans d : Aiortc.RTCSessionDescription) :
  let offer := {| Aiortc.sdp := string_of_list_byte payload;
                  Aiortc.type := "offer" |} in
  utf8_valid payload = true ->
  Aiortc.on_setRemoteDescription e [] offer = None ->
  Aiortc.on_createAnswer e [Aiortc.CSetRemoteDescription offer] = Ok ans ->
  Aiortc.on_setLocalDescription e
    [Aiortc.CSetRemoteDescription offer; Aiortc.CCreateAnswer] ans = None ->
  Aiortc.read_localDescription e
    [Aiortc.CSetRemoteDescription offer; Aiortc.CCreateAnswer;
     Aiortc.CSetLocalDescription ans] = Some d ->
  let s0 := snd (S_end.on_connect rc (S_end.WebRTCServer_init e)) in
  let s1 := S_end.run_until_idle
              (snd (S_end.broker_publishes
                      {| Mqtt.topic := S_end.OFFER_TOPIC;
                         Mqtt.payload := payload |} s0)) in
  Aiortc.history (S_end.pc s1) =
    [Aiortc.CSetRemoteDescription offer; Aiortc.CCreateAnswer;
     Aiortc.CSetLocalDescription ans] /\
  Mqtt.published (S_end.mqtt_client s1) =
    [(S_end.ANSWER_TOPIC, Aiortc.sdp d)] /\
  S_end.unretrieved s1 = [] /\
  S_end.tasks s1 = [] /\ S_end.ready s1 = [].
Proof.
  intros offer Hutf H1 H2 H3 H4 s0 s1.
  destruct (offer_is_answered s0 payload ans d
              eq_refl Hutf eq_refl eq_refl H1 H2 H3 H4)
    as [Hh [Hp [Ht [Hr Hu]]]].
  fold s1 in Hh, Hp, Ht, Hr, Hu.
  rewrite Hh, Hp, Ht, Hr, Hu. repeat split.
Qed.

Lemma first_offer_is_answered_once_witness :
  Aiortc.history (S_end.pc Sim.server1) =
    [Aiortc.CSetRemoteDescription
       {| Aiortc.sdp := "v=0 offer"; Aiortc.type := "offer" |};
     Aiortc.CCreateAnswer;
     Aiortc.CSetLocalDescription
       {| Aiortc.sdp := "v=0 answer"; Aiortc.type := "answer" |}] /\
  Mqtt.published (S_end.mqtt_client Sim.server1) =
    [(S_end.ANSWER_TOPIC, "v=0 answer"%string)].
Proof.
  destruct (first_offer_is_answered_once
              Sim.engine 0 (Sim.ascii_bytes "v=0 offer")
              {| Aiortc.sdp := "v=0 answer"; Aiortc.type := "answer" |}
              {| Aiortc.sdp := "v=0 answer"; Aiortc.type := "answer" |}
              eq_refl eq_refl eq_refl eq_refl eq_refl)
    as [Hh [Hp _]].
  split; [exact Hh | exact Hp].
Defined.

(** The claim of C2 fails: a Responder that has handled one offer, with
    both descriptions set, and receives the same offer again calls the
    engine again and publishes a second answer. *)
Lemma second_offer_is_answered_again :
  let s2 := S_end.run_until_idle
              (snd (S_end.broker_publishes Sim.offer_msg Sim.server1)) in
  S_end.answers Sim.server1 = ["v=0 answer"%string] /\
  S_end.answers s2 = ["v=0 answer"%string; "v=0 answer"%string] /\
  ~ (Aiortc.history (S_end.pc s2) = Aiortc.history (S_end.pc Sim.server1) /\
     S_end.answers s2 = S_end.answers Sim.server1).
Proof.
  split; [reflexivity |]. split; [reflexivity |].
  intros [_ H]. vm_compute in H. discriminate H.
Qed.

(** C2, amended: the Responder keeps no negotiation state and has no
    test for a duplicate.  Whatever it has handled before, an offer
    message it receives while idle is applied as the remote description,
    followed by [createAnswer] and [setLocalDescription]; when the engine
    accepts these calls one more answer is published. *)
Theorem every_offer_is_answered
        (s : S_end.WebRTCServer) (payload : bytes)
        (ans d : Aiortc.RTCSessionDescription) :
  let e := Aiortc.engine (S_end.pc s) in
  let h := Aiortc.history (S_end.pc s) in
  let offer := {| Aiortc.sdp := string_of_list_byte payload;
                  Aiortc.type := "offer" |} in
  Mqtt.subscribed (S_end.mqtt_client s) S_end.OFFER_TOPIC = true ->
  utf8_valid payload = true ->
  S_end.ready s = [] ->
  forallb S_end.is_playback (S_end.tasks s) = true ->
  Aiortc.on_setRemoteDescription e h offer = None ->
  Aiortc.on_createAnswer e (h ++ [Aiortc.CSetRemoteDescription offer])
    = Ok ans ->
  Aiortc.on_setLocalDescription e
    (h ++ [Aiortc.CSetRemoteDescription offer; Aiortc.CCreateAnswer]) ans
    = None ->
  Aiortc.read_localDescription e
    (h ++ [Aiortc.CSetRemoteDescription offer; Aiortc.CCreateAnswer;
           Aiortc.CSetLocalDescription ans]) = Some d ->
  let s' := S_end.run_until_idle
              (snd (S_end.broker_publishes
                      {| Mqtt.topic := S_end.OFFER_TOPIC;
                         Mqtt.payload := payload |} s)) in
  Aiortc.history (S_end.pc s') =
    h ++ [Aiortc.CSetRemoteDescription offer; Aiortc.CCreateAnswer;
          Aiortc.CSetLocalDescription ans] /\
  S_end.answers s' = S_end.answers s ++ [Aiortc.sdp d].
Proof.
  intros e h offer Hsub Hutf Hrd Hts H1 H2 H3 H4 s'.
  destruct (offer_is_answered s payload ans d Hsub Hutf Hrd Hts H1 H2 H3 H4)
    as [Hh [Hp _]].
  fold s' in Hh, Hp. split; [exact Hh |].
  unfold S_end.answers. rewrite Hp, flat_map_app. reflexivity.
Qed.

Lemma every_offer_is_answered_witness :
  S_end.answers
    (S_end.run_until_idle
       (snd (S_end.broker_publishes Sim.offer_msg Sim.server1)))
  = S_end.answers Sim.server1 ++ ["v=0 answer"%string].
Proof.
  apply (every_offer_is_answered
           Sim.server1 (Sim.ascii_bytes "v=0 offer")
           {| Aiortc.sdp := "v=0 answer"; Aiortc.type := "answer" |}
           {| Aiortc.sdp := "v=0 answer"; Aiortc.type := "answer" |}
           eq_refl eq_refl eq_refl eq_refl eq_refl eq_refl eq_refl eq_refl).
Defined.

(** ** Inbound tracks and the playback sink *)

Lemma server_on_track_consumers (tr : Aiortc.MediaStreamTrack) (id : nat)
      (s : S_end.WebRTCServer) :
  S_end.consumers id (snd (S_end.on_track tr s)) =
  S_end.consumers id s + Sink.audio_notifications id [tr].
Proof.
  unfold S_end.on_track, Sink.audio_notifications. cbn [filter].
  destruct (String.eqb (Aiortc.kind tr) "audio").
  - unfold bind, S_end.create_task, S_end.set_player_task, modify,
      S_end.consumers, Asyncio.spawn.
    cbn [snd S_end.tasks andb]. rewrite filter_app, length_app.
    cbn [filter snd]. destruct (Nat.eqb (Aiortc.id tr) id); reflexivity.
  - cbn [ret snd andb List.length]. rewrite Nat.add_0_r. reflexivity.
Qed.

Lemma client_on_track_consumers (tr : Aiortc.MediaStreamTrack) (id : nat)
      (c : C_end.WebRTCClient) :
  C_end.consumers id (snd (C_end.on_track tr c)) =
  C_end.consumers id c + Sink.audio_notifications id [tr].
Proof.
  unfold C_end.on_track, Sink.audio_notifications. cbn [filter].
  destruct (String.eqb (Aiortc.kind tr) "audio").
  - unfold bind, C_end.create_task, C_end.set_player_task, modify,
      C_end.consumers, Asyncio.spawn.
    cbn [snd C_end.tasks andb]. rewrite filter_app, length_app.
    cbn [filter snd]. destruct (Nat.eqb (Aiortc.id tr) id); reflexivity.
  - cbn [ret snd andb List.length]. rewrite Nat.add_0_r. reflexivity.
Qed.

Lemma audio_notifications_cons (id : nat) (tr : Aiortc.MediaStreamTrack)
      (trs : list Aiortc.MediaStreamTrack) :
  Sink.audio_notifications id (tr :: trs) =
  Sink.audio_notifications id [tr] + Sink.audio_notifications id trs.
Proof.
  unfold Sink.audio_notifications. cbn [filter].
  destruct (_ && _)%bool; reflexivity.
Qed.

(** The claim of C3 fails: the engine reports the same audio track twice
    and the Responder, like the Caller, then has two playback tasks on
    that track. *)
Lemma second_notification_starts_second_sink :
  ~ (S_end.consumers 7
       (S_end.notify [Sim.remote_audio; Sim.remote_audio] Sim.server0) <= 1)
  /\
  ~ (C_end.consumers 7
       (C_end.notify [Sim.remote_audio; Sim.remote_audio] Sim.client) <= 1).
Proof.
  split; vm_compute; intros H; inversion H as [| n H' Hn]; inversion H'.
Qed.

(** C3, amended: on both endpoints every notification of an audio track
    starts one playback task on that track, the first one as well as any
    later one for the same track (the handler keeps no record of the
    tracks it has bound), and a notification of a track of another kind
    starts none.  So the number of playback tasks on a track grows by the
    number of audio notifications that reported it. *)
Theorem every_audio_notification_starts_a_sink
        (trs : list Aiortc.MediaStreamTrack) (id : nat)
        (s : S_end.WebRTCServer) (c : C_end.WebRTCClient) :
  S_end.consumers id (S_end.notify trs s) =
    S_end.consumers id s + Sink.audio_notifications id trs /\
  C_end.consumers id (C_end.notify trs c) =
    C_end.consumers id c + Sink.audio_notifications id trs.
Proof.
  split.
  - revert s. unfold S_end.notify.
    induction trs as [| tr trs IH]; intros s.
    + cbn. rewrite Nat.add_0_r. reflexivity.
    + cbn [fold_left]. rewrite IH, server_on_track_consumers.
      rewrite (audio_notifications_cons id tr trs). lia.
  - revert c. unfold C_end.notify.
    induction trs as [| tr trs IH]; intros c.
    + cbn. rewrite Nat.add_0_r. reflexivity.
    + cbn [fold_left]. rewrite IH, client_on_track_consumers.
      rewrite (audio_notifications_cons id tr trs). lia.
Qed.

Lemma play_audio_same : S_end.play_audio = C_end.play_audio.
Proof. reflexivity. Qed.

(** One turn of the sink on a track that has a frame to deliver. *)
Lemma play_turn_frame (h : PyAudio.Host) (past : list PyAudio.Call)
      (k : string) (i n : nat) (f : Av.AudioFrame)
      (rest : list Av.AudioFrame) :
  C_end.play_audio_turn
    {| Sink.p := {| PyAudio.host := h; PyAudio.history := past |};
       Sink.track := {| Aiortc.kind := k; Aiortc.id := i;
                        Aiortc.incoming := f :: rest;
                        Aiortc.pulls := n |} |}
  = match Av.planes f with
    | [] =>
      (Ok false,
       {| Sink.p := {| PyAudio.host := h; PyAudio.history := past |};
          Sink.track := {| Aiortc.kind := k; Aiortc.id := i;
                           Aiortc.incoming := rest;
                           Aiortc.pulls := S n |} |})
    | pl :: _ =>
      (Ok (match PyAudio.on_write h past (Av.to_bytes pl) with
           | None => true
           | Some _ => false
           end),
       {| Sink.p := {| PyAudio.host := h;
                       PyAudio.history :=
                         past ++ [PyAudio.CWrite (Av.to_bytes pl)] |};
          Sink.track := {| Aiortc.kind := k; Aiortc.id := i;
                           Aiortc.incoming := rest;
                           Aiortc.pulls := S n |} |})
    end.
Proof.
  unfold C_end.play_audio_turn, try_except, bind, zoom, Aiortc.recv, lift,
    Sink.planes_0, PyAudio.write, PyAudio.answer.
  cbn [Sink.track Sink.p Aiortc.incoming Sink.set_track Sink.set_p
       PyAudio.host PyAudio.history Aiortc.kind Aiortc.id Aiortc.pulls].
  destruct (Av.planes f) as [| pl pls]; [reflexivity |].
  destruct (PyAudio.on_write h past (Av.to_bytes pl)); reflexivity.
Qed.

(** The loop of the sink ends within one turn more than the track has
    frames, on any output device. *)
Lemma play_loop_returns (h : PyAudio.Host) (k : string) (i : nat)
      (frames : list Av.AudioFrame) :
  forall fuel past n,
    List.length frames < fuel ->
    exists s,
      Asyncio.while_true fuel C_end.play_audio_turn
        {| Sink.p := {| PyAudio.host := h; PyAudio.history := past |};
           Sink.track := {| Aiortc.kind := k; Aiortc.id := i;
                            Aiortc.incoming := frames;
                            Aiortc.pulls := n |} |}
      = Some (Ok tt, s).
Proof.
  induction frames as [| f rest IH]; intros fuel past n Hf;
    (destruct fuel as [| fuel]; [inversion Hf |]).
  - eexists. reflexivity.
  - cbn [List.length] in Hf. apply Nat.succ_lt_mono in Hf.
    cbn [Asyncio.while_true]. rewrite play_turn_frame.
    destruct (Av.planes f) as [| pl pls].
    + eexists. reflexivity.
    + destruct (PyAudio.on_write h past (Av.to_bytes pl)).
      * eexists. reflexivity.
      * apply IH. exact Hf.
Qed.

(** On a device in working order the loop writes every frame of the
    track, in order, and leaves at the pull that fails. *)
Lemma play_loop_working (h : PyAudio.Host) (k : string) (i : nat)
      (frames : list Av.AudioFrame) :
  PyAudio.working h ->
  Forall (fun f => Av.planes f <> []) frames ->
  forall fuel past n,
    List.length frames < fuel ->
    Asyncio.while_true fuel C_end.play_audio_turn
      {| Sink.p := {| PyAudio.host := h; PyAudio.history := past |};
         Sink.track := {| Aiortc.kind := k; Aiortc.id := i;
                          Aiortc.incoming := frames;
                          Aiortc.pulls := n |} |}
    = Some (Ok tt,
            {| Sink.p :=
                 {| PyAudio.host := h;
                    PyAudio.history :=
                      past ++ map PyAudio.CWrite (map Sink.raw_bytes frames) |};
               Sink.track := {| Aiortc.kind := k; Aiortc.id := i;
                                Aiortc.incoming := [];
                                Aiortc.pulls :=
                                  S (List.length frames + n) |} |}).
Proof.
  intros Hw Hp. induction Hp as [| f rest Hf Hrest IH]; intros fuel past n Hl;
    (destruct fuel as [| fuel]; [inversion Hl |]).
  - cbn. rewrite app_nil_r. reflexivity.
  - cbn [List.length] in Hl. apply Nat.succ_lt_mono in Hl.
    cbn [Asyncio.while_true]. rewrite play_turn_frame.
    cbn [map].
    change (Sink.raw_bytes f)
      with (match Av.planes f with
            | pl :: _ => Av.to_bytes pl
            | [] => []
            end).
    destruct (Av.planes f) as [| pl pls]; [contradiction Hf; reflexivity |].
    destruct (Hw past) as [_ [Hwr _]]. rewrite Hwr.
    rewrite (IH fuel _ _ Hl).
    rewrite <- app_assoc, Nat.add_succ_r. reflexivity.
Qed.

(** C7: on both endpoints, with an output device in working order, the
    sink writes the raw bytes of each frame it receives, in the order of
    arrival, until a pull fails; it pulls no more after that (one pull
    per frame and the one that failed), stops and closes the device and
    releases the library, and returns normally. *)
Theorem playback_runs_until_pull_fails
        (h : PyAudio.Host) (tr : Aiortc.MediaStreamTrack) (fuel : nat) :
  PyAudio.working h ->
  Forall (fun f => Av.planes f <> []) (Aiortc.incoming tr) ->
  List.length (Aiortc.incoming tr) < fuel ->
  exists s,
    C_end.play_audio fuel h tr = Some (Ok tt, s) /\
    S_end.play_audio fuel h tr = Some (Ok tt, s) /\
    PyAudio.history (Sink.p s) =
      PyAudio.COpen false None
      :: map PyAudio.CWrite (map Sink.raw_bytes (Aiortc.incoming tr))
      ++ Sink.release_calls /\
    Aiortc.pulls (Sink.track s) =
      S (List.length (Aiortc.incoming tr) + Aiortc.pulls tr) /\
    Aiortc.incoming (Sink.track s) = [].
Proof.
  intros Hw Hp Hl. rewrite play_audio_same.
  destruct tr as [k i frames n]. cbn [Aiortc.incoming Aiortc.pulls] in *.
  unfold C_end.play_audio, zoom, PyAudio.open, PyAudio.PyAudio,
    PyAudio.record, Sink.set_p.
  cbn [Sink.p Sink.track PyAudio.host PyAudio.history app].
  destruct (Hw []) as [Ho _]. rewrite Ho.
  rewrite (play_loop_working h k i frames Hw Hp fuel _ n Hl).
  unfold bind, PyAudio.stop_stream, PyAudio.close, PyAudio.terminate,
    PyAudio.answer, PyAudio.record.
  cbn [Sink.p Sink.track PyAudio.host PyAudio.history].
  destruct (Hw ([PyAudio.COpen false None]
                  ++ map PyAudio.CWrite (map Sink.raw_bytes frames)))
    as [_ [_ [Hs _]]].
  rewrite Hs. cbn [PyAudio.host PyAudio.history].
  match goal with
  | |- context [PyAudio.on_close h ?x] =>
    destruct (Hw x) as [_ [_ [_ [Hc _]]]]; rewrite Hc
  end.
  cbn [PyAudio.host PyAudio.history].
  match goal with
  | |- context [PyAudio.on_terminate h ?x] =>
    destruct (Hw x) as [_ [_ [_ [_ Ht]]]]; rewrite Ht
  end.
  eexists. split; [reflexivity |]. split; [reflexivity |].
  cbn [Sink.p Sink.track PyAudio.history Aiortc.pulls Aiortc.incoming].
  unfold Sink.release_calls. rewrite <- !app_assoc. repeat split.
Qed.

Lemma sim_host_working : PyAudio.working Sim.host.
Proof. intros past. repeat split. Qed.

Lemma playback_runs_until_pull_fails_witness :
  exists s,
    S_end.play_audio 3 Sim.host Sim.remote_audio = Some (Ok tt, s) /\
    PyAudio.history (Sink.p s) =
      [PyAudio.COpen false None;
       PyAudio.CWrite [x01; x02; x03; x04];
       PyAudio.CWrite [x05; x06; x07; x08];
       PyAudio.CStopStream; PyAudio.CClose; PyAudio.CTerminate] /\
    Aiortc.pulls (Sink.track s) = 3.
Proof.
  destruct (playback_runs_until_pull_fails Sim.host Sim.remote_audio 3)
    as [s [_ [Hs [Hh [Hn _]]]]].
  - exact sim_host_working.
  - repeat constructor; discriminate.
  - cbn. lia.
  - exists s. split; [exact Hs |]. split; [exact Hh | exact Hn].
Defined.

(** The sink returns on any device and any track that ends. *)
Lemma play_audio_returns (h : PyAudio.Host) (tr : Aiortc.MediaStreamTrack)
      (fuel : nat) :
  List.length (Aiortc.incoming tr) < fuel ->
  exists r, C_end.play_audio fuel h tr = Some r.
Proof.
  intros Hl. destruct tr as [k i frames n]. cbn [Aiortc.incoming] in Hl.
  unfold C_end.play_audio, zoom, PyAudio.open, PyAudio.PyAudio,
    PyAudio.record, Sink.set_p.
  cbn [Sink.p Sink.track PyAudio.host PyAudio.history app].
  destruct (PyAudio.on_open h []); [eexists; reflexivity |].
  destruct (play_loop_returns h k i frames fuel
              [PyAudio.COpen false None] n Hl) as [s Hs].
  rewrite Hs. eexists. reflexivity.
Qed.

(* ================================================================== *)
(** * Further properties of the code                                   *)
(* ================================================================== *)

(** ** The int16 view *)

(** X1: the detour of [recv] through numpy is lossless.  A buffer of even
    length is viewed as half as many int16 values, and [tobytes] gives
    back the very bytes; a buffer of odd length makes [frombuffer] raise
    [ValueError]. *)
Theorem int16_view_round_trip (data : bytes) :
  (Nat.even (List.length data) = true ->
   exists a, Np.frombuffer_int16 data = Ok a /\
             Np.tobytes a = data /\
             List.length a * 2 = List.length data) /\
  (Nat.even (List.length data) = false ->
   Np.frombuffer_int16 data = Raise ValueError).
Proof.
  induction data as [| x | lo hi rest [IHe IHo]] using list_pair_ind.
  - split; [| discriminate]. intros _. exists []. repeat split.
  - split; [discriminate |]. reflexivity.
  - cbn [List.length Nat.even]. split; intros H.
    + destruct (IHe H) as [a [Ha [Hb Hl]]].
      exists (Np.int16_of lo hi :: a).
      assert (Np.frombuffer_int16 (lo :: hi :: rest)
              = Ok (Np.int16_of lo hi :: a)) as Hf
          by (cbn [Np.frombuffer_int16]; rewrite Ha; reflexivity).
      split; [exact Hf |]. split.
      * apply tobytes_frombuffer. exact Hf.
      * cbn [List.length]. lia.
    + cbn [Np.frombuffer_int16]. rewrite (IHo H). reflexivity.
Qed.

Lemma int16_view_round_trip_witness :
  exists a, Np.frombuffer_int16 [x34; x12; xff; xff] = Ok a /\
            Np.tobytes a = [x34; x12; xff; xff].
Proof.
  destruct (proj1 (int16_view_round_trip [x34; x12; xff; xff]) eq_refl)
    as [a [Ha [Hb _]]].
  exists a. split; assumption.
Defined.

(** ** The microphone source between the keyboard and the engine *)

Lemma recv_is_active (t : C_end.AudioInputTrack) :
  C_end.is_active (snd (C_end.recv t)) = C_end.is_active t.
Proof. rewrite recv_raises. reflexivity. Qed.

(** X2: a pull never changes the gate and [set_ptt] overwrites it, so
    after any interleaving of the two the gate holds the argument of the
    last [set_ptt] (its first value when there was none). *)
Theorem gate_holds_last_value (acts : list C_end.Action)
        (t : C_end.AudioInputTrack) :
  C_end.is_active (C_end.after acts t) =
  Mic.gate_after acts (C_end.is_active t).
Proof.
  revert t. unfold C_end.after.
  induction acts as [| a acts IH]; intros t; [reflexivity |].
  cbn [fold_left Mic.gate_after]. rewrite IH.
  destruct a as [b |]; cbn [C_end.act].
  - reflexivity.
  - rewrite recv_is_active. reflexivity.
Qed.

Lemma last_cons (A : Type) (k : A) (ks : list A) (d : A) :
  last (k :: ks) d = last ks k.
Proof.
  revert k d. induction ks as [| x ks IH]; intros k d; [reflexivity |].
  change (last (k :: x :: ks) d) with (last (x :: ks) d).
  rewrite (IH x d), (IH x k). reflexivity.
Qed.

(** X6: the keyboard thread only moves the gate.  After it has polled
    the key any number of times, the gate holds the state of the key at
    the last poll, and the connection, the bus client, the loop and the
    capture device are as they were. *)
Theorem keyboard_only_moves_gate (keys : list bool) (c : C_end.WebRTCClient) :
  let c' := Mic.keyboard_listener keys c in
  C_end.is_active (C_end.audio_track c') =
    last keys (C_end.is_active (C_end.audio_track c)) /\
  C_end.p (C_end.audio_track c') = C_end.p (C_end.audio_track c) /\
  C_end.pc c' = C_end.pc c /\
  C_end.mqtt_client c' = C_end.mqtt_client c /\
  C_end.ready c' = C_end.ready c /\
  C_end.tasks c' = C_end.tasks c.
Proof.
  revert c. unfold Mic.keyboard_listener.
  induction keys as [| k keys IH]; intros c; [repeat split |].
  cbn [fold_left]. rewrite last_cons.
  destruct (IH (snd (Mic.keyboard_poll k c))) as [H1 [H2 [H3 [H4 [H5 H6]]]]].
  rewrite H1, H2, H3, H4, H5, H6.
  destruct k; repeat split.
Qed.

(** ** The playback sink on any output device *)

(** One turn of the sink on a track that has ended. *)
Lemma play_turn_ended (h : PyAudio.Host) (past : list PyAudio.Call)
      (k : string) (i n : nat) :
  C_end.play_audio_turn
    {| Sink.p := {| PyAudio.host := h; PyAudio.history := past |};
       Sink.track := {| Aiortc.kind := k; Aiortc.id := i;
                        Aiortc.incoming := [];
                        Aiortc.pulls := n |} |}
  = (Ok false,
     {| Sink.p := {| PyAudio.host := h; PyAudio.history := past |};
        Sink.track := {| Aiortc.kind := k; Aiortc.id := i;
                         Aiortc.incoming := [];
                         Aiortc.pulls := S n |} |}).
Proof. reflexivity. Qed.

(** The loop of the sink, turn by turn: it goes on as long as the track
    delivers a frame, the frame has a plane and the device takes the
    write, and leaves at the first turn where one of the three fails. *)
Lemma play_loop_exact (h : PyAudio.Host) (k : string) (i : nat)
      (frames : list Av.AudioFrame) :
  forall fuel past n,
    List.length frames < fuel ->
    exists s j w,
      Asyncio.while_true fuel C_end.play_audio_turn
        {| Sink.p := {| PyAudio.host := h; PyAudio.history := past |};
           Sink.track := {| Aiortc.kind := k; Aiortc.id := i;
                            Aiortc.incoming := frames;
                            Aiortc.pulls := n |} |}
      = Some (Ok tt, s) /\
      j <= List.length frames /\
      (forall m f,
          m < j -> nth_error frames m = Some f ->
          Av.planes f <> [] /\
          PyAudio.on_write h
            (past ++ map PyAudio.CWrite
                         (map Sink.raw_bytes (firstn m frames)))
            (Sink.raw_bytes f) = None) /\
      ((j = List.length frames /\ w = j) \/
       (exists f,
           nth_error frames j = Some f /\
           ((Av.planes f = [] /\ w = j) \/
            (Av.planes f <> [] /\
             PyAudio.on_write h
               (past ++ map PyAudio.CWrite
                            (map Sink.raw_bytes (firstn j frames)))
               (Sink.raw_bytes f) <> None /\
             w = S j)))) /\
      Sink.p s =
        {| PyAudio.host := h;
           PyAudio.history :=
             past ++ map PyAudio.CWrite
                         (map Sink.raw_bytes (firstn w frames)) |} /\
      Aiortc.pulls (Sink.track s) = S (n + j) /\
      Aiortc.incoming (Sink.track s) = skipn (S j) frames.
Proof.
  induction frames as [| f rest IH]; intros fuel past n Hl;
    (destruct fuel as [| fuel]; [inversion Hl |]).
  - cbn [Asyncio.while_true]. rewrite play_turn_ended.
    eexists. exists 0, 0. split; [reflexivity |].
    cbn [Sink.p Sink.track Aiortc.pulls Aiortc.incoming firstn map
         List.length skipn].
    rewrite app_nil_r, Nat.add_0_r.
    repeat split; try lia.
  - cbn [List.length] in Hl. apply Nat.succ_lt_mono in Hl.
    cbn [Asyncio.while_true]. rewrite play_turn_frame.
    destruct (Av.planes f) as [| pl pls] eqn:Hpl.
    + eexists. exists 0, 0. split; [reflexivity |].
      cbn [Sink.p Sink.track Aiortc.pulls Aiortc.incoming firstn map
           List.length skipn].
      rewrite app_nil_r, Nat.add_0_r.
      repeat split; try lia.
      right. exists f. split; [reflexivity |].
      left. split; [exact Hpl | reflexivity].
    + assert (Sink.raw_bytes f = Av.to_bytes pl) as Hrb
          by (unfold Sink.raw_bytes; rewrite Hpl; reflexivity).
      assert (Av.planes f <> []) as Hne by (rewrite Hpl; discriminate).
      destruct (PyAudio.on_write h past (Av.to_bytes pl)) as [e |] eqn:Hw.
      * eexists. exists 0, 1. split; [reflexivity |].
        cbn [Sink.p Sink.track Aiortc.pulls Aiortc.incoming firstn map
             List.length skipn].
        rewrite app_nil_r, Nat.add_0_r, Hrb.
        repeat split; try lia.
        right. exists f. split; [reflexivity |]. right.
        split; [exact Hne |]. split; [| reflexivity].
        rewrite Hrb, Hw. discriminate.
      * destruct (IH fuel (past ++ [PyAudio.CWrite (Av.to_bytes pl)])
                     (S n) Hl)
          as [s [j [w [Hrun [Hj [Hok [Hstop [Hp [Hpulls Hin]]]]]]]]].
        exists s, (S j), (S w). split; [exact Hrun |].
        split; [cbn [List.length]; lia |].
        split; [| split; [| split; [| split]]].
        -- intros m g Hm Hg. destruct m as [| m].
           ++ cbn [nth_error] in Hg. inversion Hg; subst g.
              split; [exact Hne |].
              cbn [firstn map]. rewrite app_nil_r, Hrb. exact Hw.
           ++ cbn [nth_error] in Hg.
              destruct (Hok m g ltac:(lia) Hg) as [H1 H2].
              split; [exact H1 |].
              cbn [firstn map]. rewrite Hrb.
              rewrite <- app_assoc in H2. exact H2.
        -- destruct Hstop as [[Hend Hwj] | [g [Hg Hcase]]].
           ++ left. cbn [List.length]. split; lia.
           ++ right. exists g. split; [exact Hg |].
              destruct Hcase as [[Hnp Hwj] | [Hpp [Hrf Hwj]]].
              ** left. split; [exact Hnp | lia].
              ** right. split; [exact Hpp |]. split; [| lia].
                 cbn [firstn map]. rewrite Hrb.
                 rewrite <- app_assoc in Hrf. exact Hrf.
        -- rewrite Hp. cbn [firstn map]. rewrite Hrb, <- app_assoc.
           reflexivity.
        -- rewrite Hpulls. lia.
        -- rewrite Hin. reflexivity.
Qed.

(** X7: the sink of either endpoint, on any output device, runs to the
    first failure and no further.  If the device cannot be opened the
    sink raises at once, with no pull made.  Otherwise it pulls the
    frames of its track in order and writes the raw bytes of each, and
    leaves its loop at the first turn where the pull fails (the track has
    ended), the frame has no plane, or the device refuses the write;
    every earlier frame has been written, once, and the pull of that
    turn is its last.  It then calls [stop_stream], [close] and
    [terminate] in this order, up to the first that raises, and returns
    normally when none does. *)
Theorem sink_runs_to_first_failure
        (h : PyAudio.Host) (tr : Aiortc.MediaStreamTrack) (fuel : nat) :
  List.length (Aiortc.incoming tr) < fuel ->
  let frames := Aiortc.incoming tr in
  let before := fun m =>
    PyAudio.COpen false None
    :: map PyAudio.CWrite (map Sink.raw_bytes (firstn m frames)) in
  S_end.play_audio fuel h tr = C_end.play_audio fuel h tr /\
  match PyAudio.on_open h [] with
  | Some e =>
    C_end.play_audio fuel h tr =
    Some (Raise e,
          {| Sink.p := {| PyAudio.host := h;
                          PyAudio.history := [PyAudio.COpen false None] |};
             Sink.track := tr |})
  | None =>
    exists r s j w,
      C_end.play_audio fuel h tr = Some (r, s) /\
      j <= List.length frames /\
      (forall m f,
          m < j -> nth_error frames m = Some f ->
          Av.planes f <> [] /\
          PyAudio.on_write h (before m) (Sink.raw_bytes f) = None) /\
      ((j = List.length frames /\ w = j) \/
       (exists f,
           nth_error frames j = Some f /\
           ((Av.planes f = [] /\ w = j) \/
            (Av.planes f <> [] /\
             PyAudio.on_write h (before j) (Sink.raw_bytes f) <> None /\
             w = S j)))) /\
      Aiortc.pulls (Sink.track s) = S (Aiortc.pulls tr + j) /\
      Aiortc.incoming (Sink.track s) = skipn (S j) frames /\
      match PyAudio.on_stop_stream h (before w) with
      | Some e =>
        r = Raise e /\
        PyAudio.history (Sink.p s) = before w ++ [PyAudio.CStopStream]
      | None =>
        match PyAudio.on_close h (before w ++ [PyAudio.CStopStream]) with
        | Some e =>
          r = Raise e /\
          PyAudio.history (Sink.p s) =
            before w ++ [PyAudio.CStopStream; PyAudio.CClose]
        | None =>
          PyAudio.history (Sink.p s) = before w ++ Sink.release_calls /\
          r = match PyAudio.on_terminate h
                      (before w ++ [PyAudio.CStopStream; PyAudio.CClose])
              with
              | Some e => Raise e
              | None => Ok tt
              end
        end
      end
  end.
Proof.
  intros Hl frames before.
  split; [rewrite play_audio_same; reflexivity |].
  destruct tr as [k i fr n]. cbn [Aiortc.incoming Aiortc.pulls] in *.
  subst frames.
  unfold C_end.play_audio, zoom, PyAudio.open, PyAudio.PyAudio,
    PyAudio.record, Sink.set_p.
  cbn [Sink.p Sink.track PyAudio.host PyAudio.history app].
  destruct (PyAudio.on_open h []) as [e |]; [reflexivity |].
  destruct (play_loop_exact h k i fr fuel [PyAudio.COpen false None] n Hl)
    as [s [j [w [Hrun [Hj [Hok [Hstop [Hp [Hpulls Hin]]]]]]]]].
  cbn [app] in Hok, Hstop, Hp. fold (before w) in Hp.
  rewrite Hrun, Hp.
  unfold bind, PyAudio.stop_stream, PyAudio.close, PyAudio.terminate,
    PyAudio.answer, PyAudio.record.
  cbn [PyAudio.host PyAudio.history].
  destruct (PyAudio.on_stop_stream h (before w)) as [e1 |] eqn:E1.
  { exists (Raise e1). eexists. exists j, w.
    split; [reflexivity |]. cbn [Sink.p Sink.track PyAudio.history].
    split; [exact Hj |]. split; [exact Hok |]. split; [exact Hstop |].
    split; [exact Hpulls |]. split; [exact Hin |].
    rewrite E1. split; reflexivity. }
  cbn [PyAudio.host PyAudio.history].
  destruct (PyAudio.on_close h (before w ++ [PyAudio.CStopStream]))
    as [e2 |] eqn:E2.
  { exists (Raise e2). eexists. exists j, w.
    split; [reflexivity |]. cbn [Sink.p Sink.track PyAudio.history].
    split; [exact Hj |]. split; [exact Hok |]. split; [exact Hstop |].
    split; [exact Hpulls |]. split; [exact Hin |].
    rewrite E1, E2, <- app_assoc. split; reflexivity. }
  cbn [PyAudio.host PyAudio.history].
  rewrite <- (app_assoc (before w) [PyAudio.CStopStream] [PyAudio.CClose]).
  cbn [app].
  destruct (PyAudio.on_terminate h
              (before w ++ [PyAudio.CStopStream; PyAudio.CClose]))
    as [e3 |] eqn:E3.
  - exists (Raise e3). eexists. exists j, w.
    split; [reflexivity |]. cbn [Sink.p Sink.track PyAudio.history].
    split; [exact Hj |]. split; [exact Hok |]. split; [exact Hstop |].
    split; [exact Hpulls |]. split; [exact Hin |].
    rewrite E1, E2, E3. unfold Sink.release_calls.
    rewrite <- app_assoc. split; reflexivity.
  - exists (Ok tt). eexists. exists j, w.
    split; [reflexivity |]. cbn [Sink.p Sink.track PyAudio.history].
    split; [exact Hj |]. split; [exact Hok |]. split; [exact Hstop |].
    split; [exact Hpulls |]. split; [exact Hin |].
    rewrite E1, E2, E3. unfold Sink.release_calls.
    rewrite <- app_assoc. split; reflexivity.
Qed.

Lemma sink_runs_to_first_failure_witness :
  exists r s j w,
    C_end.play_audio 3 Sim2.choking_host Sim.remote_audio = Some (r, s) /\
    j <= 2 /\
    Aiortc.pulls (Sink.track s) = S (0 + j) /\
    Aiortc.incoming (Sink.track s) =
      skipn (S j) (Aiortc.incoming Sim.remote_audio) /\
    PyAudio.history (Sink.p s) =
      (PyAudio.COpen false None
       :: map PyAudio.CWrite
              (map Sink.raw_bytes
                   (firstn w (Aiortc.incoming Sim.remote_audio))))
      ++ Sink.release_calls.
Proof.
  destruct (proj2 (sink_runs_to_first_failure
                     Sim2.choking_host Sim.remote_audio 3
                     ltac:(cbn; lia)))
    as [r [s [j [w [Hs [Hj [_ [_ [Hn [Hi Hrel]]]]]]]]]].
  exists r, s, j, w.
  split; [exact Hs |]. split; [exact Hj |]. split; [exact Hn |].
  split; [exact Hi |]. exact (proj1 Hrel).
Defined.

(** ** Offers and answers *)

(** X8: the Caller publishes its offer only once the connection has a
    local description.  When [create_offer] returns, the engine has been
    asked for an offer and then to set it as the local description, in
    this order, and the one message added to the bus carries, on the
    Offer topic, the text of [pc.localDescription] as the engine then
    reports it.  When [create_offer] raises, the bus client is as it was:
    nothing has been published. *)
Theorem offer_published_only_when_local_set (c : C_end.WebRTCClient) :
  let e := Aiortc.engine (C_end.pc c) in
  let h := Aiortc.history (C_end.pc c) in
  let r := C_end.create_offer c in
  (fst r = Ok tt ->
   exists offer d,
     Aiortc.on_createOffer e h = Ok offer /\
     Aiortc.history (C_end.pc (snd r)) =
       h ++ [Aiortc.CCreateOffer; Aiortc.CSetLocalDescription offer] /\
     Aiortc.read_localDescription e
       (h ++ [Aiortc.CCreateOffer; Aiortc.CSetLocalDescription offer])
       = Some d /\
     Mqtt.published (C_end.mqtt_client (snd r)) =
       Mqtt.published (C_end.mqtt_client c)
         ++ [(C_end.OFFER_TOPIC, Aiortc.sdp d)]) /\
  (forall x, fst r = Raise x ->
             C_end.mqtt_client (snd r) = C_end.mqtt_client c) /\
  C_end.audio_track (snd r) = C_end.audio_track c /\
  C_end.ready (snd r) = C_end.ready c /\
  C_end.tasks (snd r) = C_end.tasks c.
Proof.
  destruct c as [[e0 h0] mq tr pt rd ts nt un].
  cbv zeta. cbn [C_end.pc Aiortc.engine Aiortc.history].
  unfold C_end.create_offer, bind, zoom, Aiortc.createOffer,
    Aiortc.setLocalDescription, Aiortc.localDescription_sdp,
    Aiortc.localDescription, Aiortc.record, C_end.set_pc,
    C_end.set_mqtt_client.
  cbn [C_end.pc C_end.mqtt_client Aiortc.engine Aiortc.history fst snd].
  destruct (Aiortc.on_createOffer e0 h0) as [offer | x0];
    cbn [C_end.pc C_end.mqtt_client Aiortc.engine Aiortc.history fst snd];
    [| repeat split; discriminate].
  destruct (Aiortc.on_setLocalDescription e0 _ offer) as [x1 |] ;
    cbn [C_end.pc C_end.mqtt_client Aiortc.engine Aiortc.history fst snd];
    [repeat split; discriminate |].
  rewrite <- !app_assoc. cbn [app].
  destruct (Aiortc.read_localDescription e0 _) as [d |] eqn:Hd;
    cbn [C_end.pc C_end.mqtt_client Aiortc.engine Aiortc.history fst snd
         C_end.audio_track C_end.ready C_end.tasks];
    [| repeat split; discriminate].
  repeat split; [| discriminate].
  intros _. exists offer, d. repeat split. exact Hd.
Qed.

Lemma offer_published_only_when_local_set_witness :
  exists offer d,
    Aiortc.history (C_end.pc (snd (C_end.create_offer Sim.client))) =
      Aiortc.history (C_end.pc Sim.client)
        ++ [Aiortc.CCreateOffer; Aiortc.CSetLocalDescription offer] /\
    Mqtt.published (C_end.mqtt_client (snd (C_end.create_offer Sim.client))) =
      Mqtt.published (C_end.mqtt_client Sim.client)
        ++ [(C_end.OFFER_TOPIC, Aiortc.sdp d)].
Proof.
  destruct (proj1 (offer_published_only_when_local_set Sim.client) eq_refl)
    as [offer [d [_ [Hh [_ Hp]]]]].
  exists offer, d. split; [exact Hh | exact Hp].
Defined.

(** What one run of [handle_offer] does to the Responder, whatever the
    engine answers. *)
Lemma handle_offer_effect (s : S_end.WebRTCServer) (sdp : string) :
  let r := S_end.handle_offer sdp s in
  S_end.ready (snd r) = S_end.ready s /\
  S_end.tasks (snd r) = S_end.tasks s /\
  S_end.unretrieved (snd r) = S_end.unretrieved s /\
  Mqtt.subscriptions (S_end.mqtt_client (snd r)) =
    Mqtt.subscriptions (S_end.mqtt_client s) /\
  ((exists x, fst r = Raise x /\
              S_end.mqtt_client (snd r) = S_end.mqtt_client s) \/
   (exists a, fst r = Ok tt /\
              Mqtt.published (S_end.mqtt_client (snd r)) =
                Mqtt.published (S_end.mqtt_client s)
                  ++ [(S_end.ANSWER_TOPIC, a)])).
Proof.
  destruct s as [[e0 h0] mq pt rd ts nt un].
  cbv zeta.
  unfold S_end.handle_offer, bind, zoom, Aiortc.setRemoteDescription,
    Aiortc.createAnswer, Aiortc.setLocalDescription,
    Aiortc.localDescription_sdp, Aiortc.localDescription, Aiortc.record,
    S_end.set_pc, S_end.set_mqtt_client.
  cbn [S_end.pc S_end.mqtt_client Aiortc.engine Aiortc.history fst snd].
  destruct (Aiortc.on_setRemoteDescription e0 h0 _) as [x0 |];
    cbn [S_end.pc S_end.mqtt_client Aiortc.engine Aiortc.history fst snd];
    [repeat split; left; exists x0; split; reflexivity |].
  destruct (Aiortc.on_createAnswer e0 _) as [ans | x1];
    cbn [S_end.pc S_end.mqtt_client Aiortc.engine Aiortc.history fst snd];
    [| repeat split; left; exists x1; split; reflexivity].
  destruct (Aiortc.on_setLocalDescription e0 _ ans) as [x2 |];
    cbn [S_end.pc S_end.mqtt_client Aiortc.engine Aiortc.history fst snd];
    [repeat split; left; exists x2; split; reflexivity |].
  destruct (Aiortc.read_localDescription e0 _) as [d |];
    cbn [S_end.pc S_end.mqtt_client Aiortc.engine Aiortc.history fst snd];
    [| repeat split; left; exists AttributeError; split; reflexivity].
  repeat split. right. exists (Aiortc.sdp d). split; reflexivity.
Qed.

(** X9: an offer the engine rejects stops the Responder's handler there:
    [handle_offer] raises the engine's error, asks nothing more of the
    engine (no [createAnswer], no [setLocalDescription]) and publishes
    nothing; and whenever [handle_offer] raises, at whatever step, no
    answer has been published. *)
Theorem rejected_offer_is_not_answered
        (s : S_end.WebRTCServer) (sdp : string) :
  let e := Aiortc.engine (S_end.pc s) in
  let h := Aiortc.history (S_end.pc s) in
  let offer := {| Aiortc.sdp := sdp; Aiortc.type := "offer" |} in
  let r := S_end.handle_offer sdp s in
  (forall x,
      Aiortc.on_setRemoteDescription e h offer = Some x ->
      fst r = Raise x /\
      Aiortc.history (S_end.pc (snd r)) =
        h ++ [Aiortc.CSetRemoteDescription offer]) /\
  (forall x, fst r = Raise x ->
             S_end.mqtt_client (snd r) = S_end.mqtt_client s).
Proof.
  cbv zeta. split.
  - intros x Hx. destruct s as [[e0 h0] mq pt rd ts nt un].
    cbn [S_end.pc Aiortc.engine Aiortc.history] in Hx.
    unfold S_end.handle_offer, bind, zoom, Aiortc.setRemoteDescription,
      Aiortc.record, S_end.set_pc.
    cbn [S_end.pc Aiortc.engine Aiortc.history].
    rewrite Hx. split; reflexivity.
  - intros x Hx.
    destruct (handle_offer_effect s sdp) as [_ [_ [_ [_ [Hr | Ho]]]]].
    + destruct Hr as [x' [_ Hm]]. exact Hm.
    + destruct Ho as [a [Hok _]]. rewrite Hok in Hx. discriminate Hx.
Qed.

Lemma rejected_offer_is_not_answered_witness :
  fst (S_end.handle_offer "v=0 offer" Sim2.deaf_server)
    = Raise (LibraryError "InvalidStateError") /\
  S_end.mqtt_client (snd (S_end.handle_offer "v=0 offer" Sim2.deaf_server))
    = S_end.mqtt_client Sim2.deaf_server.
Proof.
  split.
  - apply (proj1 (rejected_offer_is_not_answered Sim2.deaf_server "v=0 offer")
                 (LibraryError "InvalidStateError") eq_refl).
  - apply (proj2 (rejected_offer_is_not_answered Sim2.deaf_server "v=0 offer")
                 (LibraryError "InvalidStateError") eq_refl).
Defined.

(** ** The Caller's side of the exchange *)

Lemma client_set_tasks_eta (c : C_end.WebRTCClient) :
  C_loop.set_tasks (C_end.tasks c) c = c.
Proof. destruct c; reflexivity. Qed.

Lemma client_run_tasks_playbacks (ts rest : list (nat * C_end.Coroutine)) :
  forallb C_loop.is_playback ts = true ->
  forall c,
    C_loop.run_tasks (ts ++ rest) c =
    C_loop.set_tasks (ts ++ C_end.tasks (C_loop.run_tasks rest c))
                     (C_loop.run_tasks rest c).
Proof.
  induction ts as [| [n co] ts IH]; intros Hp c.
  - cbn [app]. symmetry. apply client_set_tasks_eta.
  - cbn [forallb] in Hp. apply andb_prop in Hp. destruct Hp as [Hco Hts].
    destruct co as [| sdp | tr]; try discriminate Hco.
    cbn [app C_loop.run_tasks]. rewrite (IH Hts c).
    reflexivity.
Qed.

(** The Caller from its construction to its first idle moment after the
    connection to the bus. *)
Lemma caller_connect_run
        (e : Aiortc.Engine) (h : PyAudio.Host) (c : C_end.WebRTCClient)
        (rc : nat) (offer d : Aiortc.RTCSessionDescription) :
  C_end.WebRTCClient_init e h = Ok c ->
  Aiortc.on_createOffer e [Aiortc.CAddTrack] = Ok offer ->
  Aiortc.on_setLocalDescription e
    [Aiortc.CAddTrack; Aiortc.CCreateOffer] offer = None ->
  Aiortc.read_localDescription e
    [Aiortc.CAddTrack; Aiortc.CCreateOffer;
     Aiortc.CSetLocalDescription offer] = Some d ->
  let c1 := C_loop.run_until_idle (snd (C_end.on_connect rc c)) in
  Aiortc.history (C_end.pc c1) =
    [Aiortc.CAddTrack; Aiortc.CCreateOffer;
     Aiortc.CSetLocalDescription offer] /\
  Mqtt.published (C_end.mqtt_client c1) =
    [(C_end.OFFER_TOPIC, Aiortc.sdp d)] /\
  Mqtt.subscriptions (C_end.mqtt_client c1) = [] /\
  C_end.tasks c1 = [] /\ C_end.ready c1 = [] /\ C_end.unretrieved c1 = [].
Proof.
  intros Hc H1 H2 H3 c1.
  unfold C_end.WebRTCClient_init in Hc.
  destruct (C_end.AudioInputTrack_init h) as [tr | x]; [| discriminate Hc].
  inversion Hc; subst c; clear Hc.
  unfold c1, C_loop.run_until_idle, C_end.on_connect,
    C_end.call_soon_threadsafe, modify.
  cbn [snd C_end.ready C_end.set_ready app C_loop.run_callbacks
       C_loop.run_callback].
  unfold C_end.create_offer_task, bind, C_end.create_task, ret,
    Asyncio.spawn, C_end.set_ready, C_loop.set_tasks.
  cbn [snd C_end.tasks C_end.next_task app C_loop.run_tasks
       C_end.pc C_end.mqtt_client C_end.audio_track C_end.player_task
       C_end.ready C_end.unretrieved].
  unfold C_end.create_offer, bind, zoom, Aiortc.createOffer,
    Aiortc.setLocalDescription, Aiortc.localDescription_sdp,
    Aiortc.localDescription, Aiortc.record, C_end.set_pc,
    C_end.set_mqtt_client, Aiortc.addTrack, Aiortc.new.
  cbn [C_end.pc C_end.mqtt_client Aiortc.engine Aiortc.history fst snd app].
  rewrite H1.
  cbn [C_end.pc C_end.mqtt_client Aiortc.engine Aiortc.history fst snd app].
  rewrite H2.
  cbn [C_end.pc C_end.mqtt_client Aiortc.engine Aiortc.history fst snd app].
  rewrite H3.
  repeat split.
Qed.

(** X10: a Caller as [__init__] leaves it, once connected to the bus and
    with an engine that accepts the calls, sends exactly one offer: the
    loop asks the engine for an offer after the microphone track was
    added, sets it as the local description, and publishes the local
    description on the Offer topic; no task is left and none has failed.
    The Caller has subscribed to nothing. *)
Theorem caller_sends_one_offer_on_connect
        (e : Aiortc.Engine) (h : PyAudio.Host) (c : C_end.WebRTCClient)
        (rc : nat) (offer d : Aiortc.RTCSessionDescription) :
  C_end.WebRTCClient_init e h = Ok c ->
  Aiortc.on_createOffer e [Aiortc.CAddTrack] = Ok offer ->
  Aiortc.on_setLocalDescription e
    [Aiortc.CAddTrack; Aiortc.CCreateOffer] offer = None ->
  Aiortc.read_localDescription e
    [Aiortc.CAddTrack; Aiortc.CCreateOffer;
     Aiortc.CSetLocalDescription offer] = Some d ->
  let c1 := C_loop.run_until_idle (snd (C_end.on_connect rc c)) in
  Aiortc.history (C_end.pc c1) =
    [Aiortc.CAddTrack; Aiortc.CCreateOffer;
     Aiortc.CSetLocalDescription offer] /\
  Mqtt.published (C_end.mqtt_client c1) =
    [(C_end.OFFER_TOPIC, Aiortc.sdp d)] /\
  Mqtt.subscriptions (C_end.mqtt_client c1) = [] /\
  C_end.tasks c1 = [] /\ C_end.ready c1 = [] /\ C_end.unretrieved c1 = [].
Proof.
  intros Hc H1 H2 H3. exact (caller_connect_run e h c rc offer d Hc H1 H2 H3).
Qed.

Lemma caller_sends_one_offer_on_connect_witness :
  Mqtt.published (C_end.mqtt_client Sim2.client1) =
    [(C_end.OFFER_TOPIC, "v=0 offer"%string)].
Proof.
  apply (caller_sends_one_offer_on_connect
           Sim.engine Sim.host Sim.client 0
           {| Aiortc.sdp := "v=0 offer"; Aiortc.type := "offer" |}
           {| Aiortc.sdp := "v=0 offer"; Aiortc.type := "offer" |}
           eq_refl eq_refl eq_refl eq_refl).
Defined.

(** X11: an answer that reaches the Caller's [on_message] is applied and
    nothing is sent back.  With a payload that decodes, on an idle
    Caller, the loop makes one call to the engine,
    [setRemoteDescription] with the payload as a description of type
    "answer"; nothing is published (no further offer), the sinks on the
    loop stay, and an error of the engine ends the task and is kept by
    the loop. *)
Theorem answer_is_applied_without_reply
        (c : C_end.WebRTCClient) (payload : bytes) :
  let e := Aiortc.engine (C_end.pc c) in
  let h := Aiortc.history (C_end.pc c) in
  let answer := {| Aiortc.sdp := string_of_list_byte payload;
                   Aiortc.type := "answer" |} in
  utf8_valid payload = true ->
  C_end.ready c = [] ->
  forallb C_loop.is_playback (C_end.tasks c) = true ->
  let c' := C_loop.run_until_idle
              (snd (C_end.on_message
                      {| Mqtt.topic := C_end.ANSWER_TOPIC;
                         Mqtt.payload := payload |} c)) in
  Aiortc.history (C_end.pc c') =
    h ++ [Aiortc.CSetRemoteDescription answer] /\
  C_end.mqtt_client c' = C_end.mqtt_client c /\
  C_end.tasks c' = C_end.tasks c /\
  C_end.ready c' = [] /\
  C_end.unretrieved c' =
    C_end.unretrieved c
      ++ match Aiortc.on_setRemoteDescription e h answer with
         | Some x => [x]
         | None => []
         end.
Proof.
  intros e h answer Hutf Hrd Hts c'. subst e h c' answer.
  destruct c as [[e0 h0] mq tr pt rd ts nt un].
  cbn [C_end.pc C_end.ready C_end.tasks Aiortc.engine Aiortc.history
       C_end.mqtt_client C_end.unretrieved] in *.
  subst rd.
  unfold C_end.on_message, bind, lift, decode.
  cbn [Mqtt.payload Mqtt.topic]. rewrite Hutf.
  change (String.eqb C_end.ANSWER_TOPIC C_end.ANSWER_TOPIC) with true.
  cbv iota.
  unfold C_loop.run_until_idle, C_end.call_soon_threadsafe, modify,
    C_end.set_ready.
  cbn [snd C_end.ready C_end.tasks C_end.pc C_end.mqtt_client
       C_end.audio_track C_end.player_task C_end.next_task
       C_end.unretrieved app C_loop.run_callbacks C_loop.run_callback].
  unfold C_end.handle_answer_task, bind, C_end.create_task, ret,
    Asyncio.spawn.
  cbn [snd C_end.ready C_end.tasks C_end.pc C_end.mqtt_client
       C_end.audio_track C_end.player_task C_end.next_task
       C_end.unretrieved].
  rewrite (client_run_tasks_playbacks _ _ Hts).
  cbn [C_loop.run_tasks].
  unfold C_end.handle_answer, zoom, Aiortc.setRemoteDescription,
    Aiortc.record, C_end.set_pc, C_loop.set_tasks.
  cbn [C_end.pc Aiortc.engine Aiortc.history C_end.ready C_end.tasks
       C_end.mqtt_client C_end.audio_track C_end.player_task
       C_end.next_task C_end.unretrieved].
  destruct (Aiortc.on_setRemoteDescription e0 h0 _) as [x |];
    cbn [C_loop.finish C_loop.note_exception
         C_end.pc C_end.mqtt_client C_end.tasks C_end.ready
         C_end.unretrieved Aiortc.history];
    rewrite ?app_nil_r; repeat split.
Qed.

Lemma answer_is_applied_without_reply_witness :
  Aiortc.history
    (C_end.pc (C_loop.run_until_idle
                 (snd (C_end.on_message Sim.answer_msg Sim2.client1)))) =
  [Aiortc.CAddTrack; Aiortc.CCreateOffer;
   Aiortc.CSetLocalDescription
     {| Aiortc.sdp := "v=0 offer"; Aiortc.type := "offer" |};
   Aiortc.CSetRemoteDescription
     {| Aiortc.sdp := "v=0 answer"; Aiortc.type := "answer" |}].
Proof.
  apply (answer_is_applied_without_reply
           Sim2.client1 (Sim.ascii_bytes "v=0 answer")
           eq_refl eq_refl eq_refl).
Defined.

(** ** The Responder over a run of messages *)

Lemma run_tasks_only_playbacks (ts : list (nat * S_end.Coroutine))
      (s : S_end.WebRTCServer) :
  forallb S_end.is_playback ts = true ->
  S_end.run_tasks ts s = S_end.set_tasks (ts ++ S_end.tasks s) s.
Proof.
  intros Hts. rewrite <- (app_nil_r ts) at 1.
  rewrite (run_tasks_playbacks ts [] Hts). reflexivity.
Qed.

Lemma run_until_idle_when_idle (s : S_end.WebRTCServer) :
  S_run.idle s ->
  S_end.pc (S_end.run_until_idle s) = S_end.pc s /\
  S_end.mqtt_client (S_end.run_until_idle s) = S_end.mqtt_client s /\
  S_run.idle (S_end.run_until_idle s).
Proof.
  destruct s as [pc0 mq pt rd ts nt un]. unfold S_run.idle.
  cbn [S_end.ready S_end.tasks]. intros [Hrd Hts]. subst rd.
  unfold S_end.run_until_idle, S_end.set_ready.
  cbn [S_end.ready S_end.run_callbacks S_end.tasks].
  rewrite (run_tasks_only_playbacks ts _ Hts).
  cbn [S_end.set_tasks S_end.tasks S_end.pc S_end.mqtt_client S_end.ready].
  rewrite app_nil_r. repeat split. exact Hts.
Qed.

(** One message: the Responder is idle again, and has published at most
    one more message, an answer, and none unless the message was on the
    Offer topic. *)
Lemma receive_step (s : S_end.WebRTCServer) (msg : Mqtt.MQTTMessage) :
  S_run.idle s ->
  S_run.idle (S_run.receive s msg) /\
  exists new,
    Mqtt.published (S_end.mqtt_client (S_run.receive s msg)) =
      Mqtt.published (S_end.mqtt_client s) ++ new /\
    Forall (fun m => fst m = S_end.ANSWER_TOPIC) new /\
    List.length new <=
      (if String.eqb (Mqtt.topic msg) S_end.OFFER_TOPIC then 1 else 0).
Proof.
  intros Hidle.
  assert (S_run.idle (S_end.run_until_idle s) /\
          exists new,
            Mqtt.published (S_end.mqtt_client (S_end.run_until_idle s)) =
              Mqtt.published (S_end.mqtt_client s) ++ new /\
            Forall (fun m => fst m = S_end.ANSWER_TOPIC) new /\
            List.length new <=
              (if String.eqb (Mqtt.topic msg) S_end.OFFER_TOPIC
               then 1 else 0)) as Hsame.
  { destruct (run_until_idle_when_idle s Hidle) as [_ [Hm Hi]].
    split; [exact Hi |]. exists []. rewrite Hm, app_nil_r.
    repeat split; [constructor | cbn; lia]. }
  unfold S_run.receive, S_end.broker_publishes.
  destruct (Mqtt.subscribed (S_end.mqtt_client s) (Mqtt.topic msg));
    [| exact Hsame].
  unfold S_end.on_message, bind, lift, decode.
  destruct (utf8_valid (Mqtt.payload msg)); [| exact Hsame].
  destruct (String.eqb (Mqtt.topic msg) S_end.OFFER_TOPIC) eqn:Htopic.
  - clear Hsame.
    destruct s as [pc0 mq pt rd ts nt un]. unfold S_run.idle in Hidle.
    cbn [S_end.ready S_end.tasks] in Hidle. destruct Hidle as [Hrd Hts].
    subst rd.
    unfold S_end.run_until_idle, S_end.call_soon_threadsafe, modify,
      S_end.set_ready.
    cbn [snd S_end.ready S_end.tasks S_end.pc S_end.mqtt_client
         S_end.player_task S_end.next_task S_end.unretrieved app
         S_end.run_callbacks S_end.run_callback].
    unfold S_end.handle_offer_task, bind, S_end.create_task, ret,
      Asyncio.spawn.
    cbn [snd S_end.ready S_end.tasks S_end.pc S_end.mqtt_client
         S_end.player_task S_end.next_task S_end.unretrieved].
    rewrite (run_tasks_playbacks _ _ Hts).
    cbn [S_end.run_tasks].
    match goal with
    | |- context [S_end.handle_offer ?a ?b] =>
      pose proof (handle_offer_effect b a) as Heff;
        cbv zeta in Heff;
        destruct (S_end.handle_offer a b) as [r sx]
    end.
    cbn [fst snd S_end.ready S_end.tasks S_end.mqtt_client
         S_end.set_tasks] in Heff.
    destruct Heff as [Hr [Ht [_ [_ Hcases]]]].
    unfold S_run.idle.
    destruct Hcases as [[x [Hraise Hm]] | [a [Hok Hp]]]; subst r;
      cbn [S_end.finish S_end.note_exception S_end.set_tasks S_end.ready
           S_end.tasks S_end.mqtt_client];
      rewrite Hr, Ht, app_nil_r.
    + split; [split; [reflexivity | exact Hts] |].
      exists []. rewrite Hm, app_nil_r.
      repeat split; [constructor | cbn; lia].
    + split; [split; [reflexivity | exact Hts] |].
      exists [(S_end.ANSWER_TOPIC, a)]. rewrite Hp.
      repeat split; [repeat constructor | cbn; lia].
  - destruct (String.eqb (Mqtt.topic msg) S_end.ICE_TOPIC); exact Hsame.
Qed.

(** X12: the Responder never speaks unless spoken to.  From any idle
    state and over any run of bus messages, whatever their topics and
    payloads and whatever the engine answers, everything it publishes is
    on the Answer topic, and it publishes at most as many messages as
    there were messages on the Offer topic. *)
Theorem responder_answers_only_offers
        (msgs : list Mqtt.MQTTMessage) (s : S_end.WebRTCServer) :
  S_run.idle s ->
  exists new,
    Mqtt.published (S_end.mqtt_client (S_run.receive_all msgs s)) =
      Mqtt.published (S_end.mqtt_client s) ++ new /\
    Forall (fun m => fst m = S_end.ANSWER_TOPIC) new /\
    List.length new <= S_run.offers_in msgs.
Proof.
  revert s. unfold S_run.receive_all.
  induction msgs as [| msg msgs IH]; intros s Hidle.
  - exists []. rewrite app_nil_r. repeat split; [constructor | cbn; lia].
  - cbn [fold_left].
    destruct (receive_step s msg Hidle) as [Hidle' [new1 [Hp1 [Hf1 Hl1]]]].
    destruct (IH _ Hidle') as [new2 [Hp2 [Hf2 Hl2]]].
    exists (new1 ++ new2). rewrite Hp2, Hp1, <- app_assoc.
    split; [reflexivity |]. split.
    + apply Forall_app. split; assumption.
    + rewrite length_app. unfold S_run.offers_in in *. cbn [filter].
      destruct (String.eqb (Mqtt.topic msg) S_end.OFFER_TOPIC);
        cbn [List.length]; lia.
Qed.

Lemma server0_idle : S_run.idle Sim.server0.
Proof. split; reflexivity. Qed.

Lemma responder_answers_only_offers_witness :
  exists new,
    Mqtt.published
      (S_end.mqtt_client
         (S_run.receive_all [Sim2.ice_msg; Sim.offer_msg; Sim.answer_msg;
                             Sim.offer_msg] Sim.server0)) =
      Mqtt.published (S_end.mqtt_client Sim.server0) ++ new /\
    List.length new <= 2.
Proof.
  destruct (responder_answers_only_offers
              [Sim2.ice_msg; Sim.offer_msg; Sim.answer_msg; Sim.offer_msg]
              Sim.server0 server0_idle)
    as [new [Hp [_ Hl]]].
  exists new. split; [exact Hp | exact Hl].
Defined.

(** ** The bus callbacks *)

(** X13: the bus callbacks only hand over to the loop.  On either
    endpoint [on_message], whatever the message, leaves the connection,
    the bus client, the tasks and (on the Caller) the microphone source
    as they are; it queues one callback, carrying the decoded payload,
    for a decodable message on the Answer topic (Caller) or the Offer
    topic (Responder), and queues nothing otherwise; it raises exactly
    when the payload is not valid UTF-8. *)
Theorem on_message_only_hands_over
        (msg : Mqtt.MQTTMessage)
        (s : S_end.WebRTCServer) (c : C_end.WebRTCClient) :
  let rs := S_end.on_message msg s in
  let rc := C_end.on_message msg c in
  let text := string_of_list_byte (Mqtt.payload msg) in
  let ok := utf8_valid (Mqtt.payload msg) in
  (fst rs = (if ok then Ok tt else Raise UnicodeDecodeError) /\
   S_end.pc (snd rs) = S_end.pc s /\
   S_end.mqtt_client (snd rs) = S_end.mqtt_client s /\
   S_end.tasks (snd rs) = S_end.tasks s /\
   S_end.ready (snd rs) =
     S_end.ready s
       ++ (if (ok && String.eqb (Mqtt.topic msg) S_end.OFFER_TOPIC)%bool
           then [S_end.CbHandleOfferTask text] else [])) /\
  (fst rc = (if ok then Ok tt else Raise UnicodeDecodeError) /\
   C_end.pc (snd rc) = C_end.pc c /\
   C_end.mqtt_client (snd rc) = C_end.mqtt_client c /\
   C_end.audio_track (snd rc) = C_end.audio_track c /\
   C_end.tasks (snd rc) = C_end.tasks c /\
   C_end.ready (snd rc) =
     C_end.ready c
       ++ (if (ok && String.eqb (Mqtt.topic msg) C_end.ANSWER_TOPIC)%bool
           then [C_end.CbHandleAnswerTask text] else [])).
Proof.
  cbv zeta.
  unfold S_end.on_message, C_end.on_message, bind, lift, decode.
  destruct (utf8_valid (Mqtt.payload msg)); cbn [andb].
  - split.
    + destruct (String.eqb (Mqtt.topic msg) S_end.OFFER_TOPIC);
        [repeat split |].
      destruct (String.eqb (Mqtt.topic msg) S_end.ICE_TOPIC);
        cbn [ret fst snd]; rewrite app_nil_r; repeat split.
    + destruct (String.eqb (Mqtt.topic msg) C_end.ANSWER_TOPIC);
        [repeat split |].
      destruct (String.eqb (Mqtt.topic msg) C_end.ICE_TOPIC);
        cbn [ret fst snd]; rewrite app_nil_r; repeat split.
  - cbn [fst snd]. rewrite !app_nil_r. repeat split.
Qed.

(** ** The two endpoints on one bus *)

Lemma client_run_tasks_only_playbacks
      (ts : list (nat * C_end.Coroutine)) (c : C_end.WebRTCClient) :
  forallb C_loop.is_playback ts = true ->
  C_loop.run_tasks ts c = C_loop.set_tasks (ts ++ C_end.tasks c) c.
Proof.
  intros Hts. rewrite <- (app_nil_r ts) at 1.
  rewrite (client_run_tasks_playbacks ts [] Hts). reflexivity.
Qed.

Lemma client_run_until_idle_when_idle (c : C_end.WebRTCClient) :
  C_end.ready c = [] ->
  forallb C_loop.is_playback (C_end.tasks c) = true ->
  C_end.pc (C_loop.run_until_idle c) = C_end.pc c /\
  C_end.mqtt_client (C_loop.run_until_idle c) = C_end.mqtt_client c /\
  C_end.ready (C_loop.run_until_idle c) = [] /\
  C_end.tasks (C_loop.run_until_idle c) = C_end.tasks c.
Proof.
  destruct c as [pc0 mq tr pt rd ts nt un].
  cbn [C_end.ready C_end.tasks]. intros Hrd Hts. subst rd.
  unfold C_loop.run_until_idle, C_end.set_ready.
  cbn [C_end.ready C_loop.run_callbacks C_end.tasks].
  rewrite (client_run_tasks_only_playbacks ts _ Hts).
  cbn [C_loop.set_tasks C_end.tasks C_end.pc C_end.mqtt_client C_end.ready].
  rewrite app_nil_r. repeat split.
Qed.

(** A Caller without subscription is offered messages in vain. *)
Lemma to_client_unsubscribed (sent : list (string * string)) :
  forall c,
    Mqtt.subscriptions (C_end.mqtt_client c) = [] ->
    C_end.ready c = [] ->
    forallb C_loop.is_playback (C_end.tasks c) = true ->
    C_end.pc (Bus.to_client sent c) = C_end.pc c /\
    C_end.mqtt_client (Bus.to_client sent c) = C_end.mqtt_client c.
Proof.
  unfold Bus.to_client.
  induction sent as [| m sent IH]; intros c Hsub Hrd Hts;
    [split; reflexivity |].
  cbn [fold_left].
  assert (C_end.broker_publishes (Bus.wire m) c = (Ok tt, c)) as Hb
      by (unfold C_end.broker_publishes, Mqtt.subscribed;
          rewrite Hsub; reflexivity).
  rewrite Hb. cbn [snd].
  destruct (client_run_until_idle_when_idle c Hrd Hts)
    as [Hpc [Hmq [Hrd' Hts']]].
  destruct (IH (C_loop.run_until_idle c)) as [H1 H2].
  - rewrite Hmq. exact Hsub.
  - exact Hrd'.
  - rewrite Hts'. exact Hts.
  - rewrite H1, H2, Hpc, Hmq. split; reflexivity.
Qed.

(** X14: the two programs on one bus.  With engines that accept the
    calls, the offer the Caller publishes on connect reaches the
    Responder with its text intact, and the Responder applies it and
    publishes its answer; offered to the Caller, that answer changes
    nothing there: the Caller, which has no subscription, never calls
    [setRemoteDescription], so the exchange stops after the answer is
    sent. *)
Theorem handshake_stops_at_the_answer
        (eC eS : Aiortc.Engine) (h : PyAudio.Host) (c : C_end.WebRTCClient)
        (rc : nat) (offer dO ans dA : Aiortc.RTCSessionDescription) :
  C_end.WebRTCClient_init eC h = Ok c ->
  Aiortc.on_createOffer eC [Aiortc.CAddTrack] = Ok offer ->
  Aiortc.on_setLocalDescription eC
    [Aiortc.CAddTrack; Aiortc.CCreateOffer] offer = None ->
  Aiortc.read_localDescription eC
    [Aiortc.CAddTrack; Aiortc.CCreateOffer;
     Aiortc.CSetLocalDescription offer] = Some dO ->
  utf8_valid (list_byte_of_string (Aiortc.sdp dO)) = true ->
  let remote := {| Aiortc.sdp := Aiortc.sdp dO; Aiortc.type := "offer" |} in
  Aiortc.on_setRemoteDescription eS [] remote = None ->
  Aiortc.on_createAnswer eS [Aiortc.CSetRemoteDescription remote] = Ok ans ->
  Aiortc.on_setLocalDescription eS
    [Aiortc.CSetRemoteDescription remote; Aiortc.CCreateAnswer] ans = None ->
  Aiortc.read_localDescription eS
    [Aiortc.CSetRemoteDescription remote; Aiortc.CCreateAnswer;
     Aiortc.CSetLocalDescription ans] = Some dA ->
  let c1 := C_loop.run_until_idle (snd (C_end.on_connect rc c)) in
  let s0 := snd (S_end.on_connect rc (S_end.WebRTCServer_init eS)) in
  let s1 := Bus.to_server (Mqtt.published (C_end.mqtt_client c1)) s0 in
  let c2 := Bus.to_client (Mqtt.published (S_end.mqtt_client s1)) c1 in
  Aiortc.history (S_end.pc s1) =
    [Aiortc.CSetRemoteDescription remote; Aiortc.CCreateAnswer;
     Aiortc.CSetLocalDescription ans] /\
  Mqtt.published (S_end.mqtt_client s1) =
    [(S_end.ANSWER_TOPIC, Aiortc.sdp dA)] /\
  Aiortc.history (C_end.pc c2) =
    [Aiortc.CAddTrack; Aiortc.CCreateOffer;
     Aiortc.CSetLocalDescription offer] /\
  Mqtt.published (C_end.mqtt_client c2) =
    [(C_end.OFFER_TOPIC, Aiortc.sdp dO)].
Proof.
  intros Hc HC1 HC2 HC3 Hutf remote HS1 HS2 HS3 HS4 c1 s0 s1 c2.
  destruct (caller_connect_run eC h c rc offer dO Hc HC1 HC2 HC3)
    as [Hh1 [Hp1 [Hsub1 [Hts1 [Hrd1 _]]]]].
  fold c1 in Hh1, Hp1, Hsub1, Hts1, Hrd1.
  pose proof (offer_is_answered s0 (list_byte_of_string (Aiortc.sdp dO))
                                ans dA) as Hs.
  cbv zeta in Hs. rewrite string_of_list_byte_of_string in Hs.
  destruct (Hs eq_refl Hutf eq_refl eq_refl HS1 HS2 HS3 HS4)
    as [Hh2 [Hp2 _]].
  assert (s1 = S_end.run_until_idle
                 (snd (S_end.broker_publishes
                         {| Mqtt.topic := S_end.OFFER_TOPIC;
                            Mqtt.payload :=
                              list_byte_of_string (Aiortc.sdp dO) |} s0)))
    as Hs1 by (unfold s1; rewrite Hp1; reflexivity).
  rewrite <- Hs1 in Hh2, Hp2.
  split; [exact Hh2 |]. split; [exact Hp2 |].
  destruct (to_client_unsubscribed
              (Mqtt.published (S_end.mqtt_client s1)) c1 Hsub1 Hrd1)
    as [Hpc Hmq].
  - rewrite Hts1. reflexivity.
  - fold c2 in Hpc, Hmq. rewrite Hpc, Hmq. split; assumption.
Qed.

Lemma handshake_stops_at_the_answer_witness :
  Aiortc.history
    (C_end.pc
       (Bus.to_client
          (Mqtt.published
             (S_end.mqtt_client
                (Bus.to_server
                   (Mqtt.published (C_end.mqtt_client Sim2.client1))
                   Sim.server0)))
          Sim2.client1)) =
  [Aiortc.CAddTrack; Aiortc.CCreateOffer;
   Aiortc.CSetLocalDescription
     {| Aiortc.sdp := "v=0 offer"; Aiortc.type := "offer" |}].
Proof.
  apply (handshake_stops_at_the_answer
           Sim.engine Sim.engine Sim.host Sim.client 0
           {| Aiortc.sdp := "v=0 offer"; Aiortc.type := "offer" |}
           {| Aiortc.sdp := "v=0 offer"; Aiortc.type := "offer" |}
           {| Aiortc.sdp := "v=0 answer"; Aiortc.type := "answer" |}
           {| Aiortc.sdp := "v=0 answer"; Aiortc.type := "answer" |}
           eq_refl eq_refl eq_refl eq_refl eq_refl
           eq_refl eq_refl eq_refl eq_refl).
Defined.
